(** * gdeltPyR: date validation, locator construction and result merging

    A shallow embedding of [gdelt/inputChecks.py], [gdelt/vectorizingFuncs.py]
    and the pipeline of [gdelt.Search] in [gdelt/base.py] (lines 291-460).

    Python values are modelled as follows.
    - A [str] is a [string] (ASCII text, so [len] is [String.length]).
    - The [date] argument, which is a [str] or a [list] of [str], is a [pyarg].
    - Naive [datetime.datetime] objects are records of their seven fields and
      are compared field by field, as CPython does.  Datetimes with a time
      zone are outside the model: a string that the parser turns into one
      makes the comparisons of the source raise a [TypeError], so such a
      string never passes validation; the statements below on what passes
      validation cover it, the statements on which exception is raised are
      about strings that parse to naive datetimes.
    - An exception is a value of [exn]; code that may raise returns a [result].
    - Third-party calls ([dateutil.parser.parse], [datetime.strptime],
      [datetime.now]) and the helper [gdelt.helpers._testdate] are
      operations of the class [DateLib]: the theorems hold for every
      implementation, and [iso_lib] is one concrete implementation used to
      run the code on examples.
    - The other modules that [Search] calls ([gdelt.dateFuncs],
      [gdelt.parallel], the schema files) are operations of the class
      [Collaborators]. *)

From Stdlib Require Import ZArith List String Ascii Bool Lia Permutation.
Import ListNotations.
Open Scope string_scope.
Open Scope Z_scope.

(** ** Exceptions and results *)

Inductive exn : Type :=
| ValueError (msg : string)
| ParserError                  (* dateutil.parser.ParserError, a ValueError subclass *)
| AttributeError (attr : string)
| UnboundLocalError (var : string).

(** [isinstance(e, ValueError)]. *)
Definition is_ValueError (e : exn) : bool :=
  match e with
  | ValueError _ | ParserError => true
  | AttributeError _ | UnboundLocalError _ => false
  end.

Inductive result (A : Type) : Type :=
| Ok (a : A)
| Raise (e : exn).
Arguments Ok {A} a.
Arguments Raise {A} e.

Definition bind {A B : Type} (m : result A) (k : A -> result B) : result B :=
  match m with
  | Ok a => k a
  | Raise e => Raise e
  end.

Notation "x <- m ;; k" := (bind m (fun x => k))
  (at level 61, m at next level, right associativity).
Notation "m ;;; k" := (bind m (fun _ => k))
  (at level 61, right associativity).

(** [try: body except: raise e] with a bare [except]. *)
Definition try_except_raise {A : Type} (body : result A) (e : exn) : result A :=
  match body with
  | Ok a => Ok a
  | Raise _ => Raise e
  end.

(** [try: body except: fallback]. *)
Definition try_except {A : Type} (body : result A) (fallback : A) : A :=
  match body with
  | Ok a => a
  | Raise _ => fallback
  end.

Definition raises {A : Type} (m : result A) : bool :=
  match m with Ok _ => false | Raise _ => true end.

Definition raises_ValueError {A : Type} (m : result A) : bool :=
  match m with Ok _ => false | Raise e => is_ValueError e end.

Fixpoint mapM {A B : Type} (f : A -> result B) (l : list A) : result (list B) :=
  match l with
  | [] => Ok []
  | a :: l' => b <- f a ;; bs <- mapM f l' ;; Ok (b :: bs)
  end.

(** ** Python arguments that are a string or a list of strings *)

Inductive pyarg : Type :=
| PStr (s : string)
| PList (l : list string).

(** ** Naive datetimes *)

Record datetime : Type := mkdt {
  year : Z; month : Z; day : Z;
  hour : Z; minute : Z; second : Z; microsecond : Z }.

Record date : Type := mkdate { dyear : Z; dmonth : Z; dday : Z }.

(** [datetime.date()]. *)
Definition date_of (t : datetime) : date := mkdate (year t) (month t) (day t).

(** [datetime.combine(d, datetime.min.time())]. *)
Definition midnight (d : date) : datetime :=
  mkdt (dyear d) (dmonth d) (dday d) 0 0 0 0.

Fixpoint lex_compare (a b : list Z) : comparison :=
  match a, b with
  | x :: a', y :: b' =>
      match x ?= y with
      | Eq => lex_compare a' b'
      | c => c
      end
  | [], [] => Eq
  | [], _ :: _ => Lt
  | _ :: _, [] => Gt
  end.

Definition dt_fields (t : datetime) : list Z :=
  [year t; month t; day t; hour t; minute t; second t; microsecond t].

Definition date_fields (d : date) : list Z := [dyear d; dmonth d; dday d].

Definition dt_compare (a b : datetime) : comparison :=
  lex_compare (dt_fields a) (dt_fields b).

(** [a < b] and [a > b] on datetimes. *)
Definition dt_ltb (a b : datetime) : bool :=
  match dt_compare a b with Lt => true | _ => false end.
Definition dt_gtb (a b : datetime) : bool :=
  match dt_compare a b with Gt => true | _ => false end.

Definition date_compare (a b : date) : comparison :=
  lex_compare (date_fields a) (date_fields b).
Definition date_ltb (a b : date) : bool :=
  match date_compare a b with Lt => true | _ => false end.

(** ** Decimal printing and reading *)

Definition digit_char (d : Z) : ascii :=
  ascii_of_nat (48 + Z.to_nat (d mod 10)).

(** [w] decimal digits of [z], most significant first (zero padded). *)
Fixpoint digits (w : nat) (z : Z) : string :=
  match w with
  | O => EmptyString
  | S w' => digits w' (z / 10) ++ String (digit_char z) EmptyString
  end.

Definition digit_val (c : ascii) : option Z :=
  let n := nat_of_ascii c in
  if (48 <=? n)%nat && (n <=? 57)%nat then Some (Z.of_nat (n - 48)) else None.

Fixpoint read_digits (acc : Z) (s : string) : option Z :=
  match s with
  | EmptyString => Some acc
  | String c s' =>
      match digit_val c with
      | Some d => read_digits (10 * acc + d) s'
      | None => None
      end
  end.

(** A non-empty run of ASCII digits read as a number. *)
Definition number (s : string) : option Z :=
  match s with
  | EmptyString => None
  | _ => read_digits 0 s
  end.

(** [str(t)]: [YYYY-MM-DD HH:MM:SS], followed by [.ffffff] when the
    microsecond field is not zero. *)
Definition str_datetime (t : datetime) : string :=
  digits 4 (year t) ++ "-" ++ digits 2 (month t) ++ "-" ++ digits 2 (day t)
  ++ " " ++ digits 2 (hour t) ++ ":" ++ digits 2 (minute t) ++ ":"
  ++ digits 2 (second t)
  ++ (if microsecond t =? 0 then EmptyString else "." ++ digits 6 (microsecond t)).

(** [t.strftime('%Y%m%d%H%M%S')]. *)
Definition strftime_stamp (t : datetime) : string :=
  digits 4 (year t) ++ digits 2 (month t) ++ digits 2 (day t)
  ++ digits 2 (hour t) ++ digits 2 (minute t) ++ digits 2 (second t).

(** ** The date library used by the code *)

Class DateLib : Type := {
  (** [dateutil.parser.parse(s)]; [None] when it raises. *)
  parse : string -> option datetime;
  (** [datetime.datetime.strptime(s, '%Y')]; [None] when it raises. *)
  strptime_Y : string -> option datetime;
  (** [datetime.datetime.strptime(s, '%Y%m')]; [None] when it raises. *)
  strptime_Ym : string -> option datetime;
  (** [datetime.datetime.now()], held fixed during one call. *)
  now : datetime;
  (** [gdelt.helpers._testdate(s)]; [None] when it raises. *)
  _testdate : string -> option datetime
}.

Definition len (s : string) : Z := Z.of_nat (String.length s).

Section InputChecks.

Context {lib : DateLib}.

Definition py_parse (s : string) : result datetime :=
  match parse s with
  | Some t => Ok t
  | None => Raise ParserError
  end.

Definition py_strptime_Y (s : string) : result datetime :=
  match strptime_Y s with
  | Some t => Ok t
  | None => Raise (ValueError "time data does not match format '%Y'")
  end.

Definition py_strptime_Ym (s : string) : result datetime :=
  match strptime_Ym s with
  | Some t => Ok t
  | None => Raise (ValueError "time data does not match format '%Y%m'")
  end.

(** *** Messages of [inputChecks.py] *)

Definition msg_future_str : string :=
  "Your date is greater than the current date. Please enter a relevant date.".
Definition msg_min : string :=
  "GDELT 2.0 only supports 'Feb 18 2015 - Present'queries currently. Try another date.".
Definition msg_noparse : string :=
  "One or more of your input date strings does not parse to a date format. Check input.".
Definition msg_future_one : string :=
  "Your date is greater than the current date.  Please enter a relevant date.".
Definition msg_order : string :=
  "Start date greater than or equal to end date. Check your entered date query.".
Definition msg_future_two : string :=
  "One of your dates is greater than the current date. Check your entered date query.".
Definition msg_future_many : string :=
  "One or more of your input date strings is greater than today's date. Check input.".

(** Lines 55-66: the normalised form [test] of one list element. *)
Definition normalise (l : string) : result string :=
  if len l =? 4 then
    t <- py_strptime_Y l ;; Ok (str_datetime t)
  else if len l =? 6 then
    t <- py_strptime_Ym l ;; Ok (str_datetime t)
  else
    Ok (try_except (t <- py_parse l ;; Ok (str_datetime t)) l).

(** Lines 54-71: the loop that fills [newdate]; it raises at the first
    element that does not normalise, does not parse, or is before
    [parse('Feb 18 2015')]. *)
Fixpoint normalise_loop (date : list string) : result (list string) :=
  match date with
  | [] => Ok []
  | l :: rest =>
      test <- normalise l ;;
      t <- py_parse test ;;
      m <- py_parse "Feb 18 2015" ;;
      if dt_ltb t m then Raise (ValueError msg_min)
      else
        newdate <- normalise_loop rest ;;
        Ok (test :: newdate)
  end.

(** [np.all(np.logical_not(np.array(ts) > now))]. *)
Definition none_after_now (ts : list datetime) : bool :=
  forallb (fun t => negb (dt_gtb t now)) ts.

(** What a Python function hands back: [None] or a list of strings. *)
Inductive retval : Type :=
| RNone
| RList (l : list string).

(** [_date_input_check(date)], lines 22-168.  The function has no [return]
    statement, so every normal exit yields [None]. *)
Definition _date_input_check (date : pyarg) : result retval :=
  match date with
  | PStr s =>
      if String.eqb s EmptyString then Ok RNone
      else
        t <- py_parse s ;;
        if dt_gtb t now then Raise (ValueError msg_future_str)
        else Ok RNone
  | PList l =>
      newdate <- normalise_loop l ;;
      let date := newdate in
      match date with
      | [] => Ok RNone
      | [_] =>
          try_except_raise
            (t <- py_parse (String.concat EmptyString date) ;;
             if dt_gtb t now then Raise (ValueError msg_future_one)
             else Ok RNone)
            (ValueError msg_noparse)
      | [d0; d1] =>
          try_except_raise (mapM py_parse date) (ValueError msg_noparse) ;;;
          t0 <- py_parse d0 ;;
          t1 <- py_parse d1 ;;
          if negb (dt_ltb t0 t1) then Raise (ValueError msg_order)
          else
            ts <- mapM py_parse date ;;
            if negb (none_after_now ts) then Raise (ValueError msg_future_two)
            else Ok RNone
      | _ =>
          (* [map(parse, date)] is lazy and never raises inside the [try] *)
          ts <- mapM py_parse date ;;
          if negb (none_after_now ts) then Raise (ValueError msg_future_many)
          else
            ts' <- mapM py_parse date ;;
            m <- py_parse "Feb 18 2015" ;;
            if existsb (fun t => negb (dt_gtb t m)) ts'
            then Raise (ValueError msg_min)
            else Ok RNone
      end
  end.

End InputChecks.

(** ** [gdelt/vectorizingFuncs.py]: resource locators *)

Definition base : string := "http://data.gdeltproject.org/gdeltv2/".

(** The double-quote character, used inside messages. *)
Definition dq : string := String (ascii_of_nat 34) EmptyString.

Definition msg_table_type : string :=
  "You entered an incorrect GDELT table type. Choose between "
  ++ dq ++ "events" ++ dq ++ "," ++ dq ++ "mentions" ++ dq ++ ",and "
  ++ dq ++ "gkg" ++ dq ++ ".".

(** Lines 46-64: the suffix [caboose] for a table and a translation flag. *)
Definition caboose_of (table : string) (translation : bool) : result string :=
  if String.eqb table "events" then
    Ok (if negb translation then ".export.CSV.zip"
        else ".translation.export.CSV.zip")
  else if String.eqb table "mentions" then
    Ok (if negb translation then ".mentions.CSV.zip"
        else ".translation.mentions.CSV.zip")
  else if String.eqb table "gkg" then
    Ok (if negb translation then ".gkg.csv.zip"
        else ".translation.gkg.csv.zip")
  else Raise (ValueError msg_table_type).

Section UrlBuilder.

Context {lib : DateLib}.

Definition py_testdate (s : string) : result datetime :=
  match _testdate s with
  | Some t => Ok t
  | None => Raise ParserError
  end.

(** Lines 74-83: the loop body of [_urlBuilder]; unlike the one of
    [_date_input_check] it has no [try] around [parse]. *)
Definition url_normalise (l : string) : result string :=
  if len l =? 4 then
    t <- py_strptime_Y l ;; Ok (str_datetime t)
  else if len l =? 6 then
    t <- py_strptime_Ym l ;; Ok (str_datetime t)
  else
    t <- py_parse l ;; Ok (str_datetime t).

(** Lines 87-89: [lambda x: x > parse('2013 04 01')]. *)
Definition after_cutover (x : datetime) : result bool :=
  c <- py_parse "2013 04 01" ;; Ok (dt_gtb x c).

(** Lines 92-94: the locator of one bucket in the mixed branch. *)
Definition mixed_locator (caboose x : string) : result string :=
  t <- py_testdate x ;;
  c <- py_parse "2013 04 01" ;;
  Ok (if date_ltb (date_of t) (date_of c)
      then base ++ x ++ ".zip"
      else base ++ x ++ caboose).

(** [_urlBuilder(dateString, table, translation)], lines 28-110. *)
Definition _urlBuilder (dateString : pyarg) (table : string)
    (translation : bool) : result pyarg :=
  caboose <- caboose_of table translation ;;
  match dateString with
  | PList ds =>
      mapM url_normalise ds ;;;
      tested <- mapM py_testdate ds ;;
      flags <- mapM after_cutover tested ;;
      if negb (forallb (fun b : bool => b) flags) then
        urls <- mapM (mixed_locator caboose) ds ;;
        Ok (PList urls)
      else
        Ok (PList (map (fun x => base ++ x ++ caboose) ds))
  | PStr s =>
      (* the inner [isinstance(dateString, list)] test is false for a str *)
      Ok (PStr (base ++ s ++ caboose))
  end.

(** The rule of the specification for one bucket, to be compared with
    [_urlBuilder]: the generic suffix for a bucket dated strictly before
    1 April 2013, the suffix of the table otherwise. *)
Definition cutover : date := mkdate 2013 4 1.

Definition per_bucket_locator (caboose x : string) : string :=
  match _testdate x with
  | Some t =>
      base ++ x ++ (if date_ltb (date_of t) cutover then ".zip" else caboose)
  | None => base ++ x ++ caboose
  end.

End UrlBuilder.

(** ** A model of the pandas frames that [Search] handles *)

(** A column label: positional, as [read_csv(header=None)] gives, or a name. *)
Inductive label : Type :=
| Pos (i : nat)
| Name (s : string).

Definition label_eqb (a b : label) : bool :=
  match a, b with
  | Pos i, Pos j => Nat.eqb i j
  | Name s, Name t => String.eqb s t
  | _, _ => false
  end.

(** A cell; [None] is NaN. *)
Definition cell : Type := option string.

Record DataFrame : Type := mkDF {
  df_columns : list label;
  df_rows : list (list cell) }.

(** [len(df)]. *)
Definition df_len (df : DataFrame) : nat := List.length (df_rows df).

Definition msg_length_mismatch : string := "Length mismatch".

(** [df.columns = names]: pandas raises [ValueError] unless the number of
    names equals the number of columns. *)
Definition set_columns (df : DataFrame) (names : list string) : result DataFrame :=
  if Nat.eqb (List.length names) (List.length (df_columns df))
  then Ok (mkDF (map Name names) (df_rows df))
  else Raise (ValueError msg_length_mismatch).

Fixpoint label_union (acc more : list label) : list label :=
  match more with
  | [] => acc
  | l :: more' =>
      if existsb (label_eqb l) acc then label_union acc more'
      else label_union (acc ++ [l]) more'
  end.

Fixpoint lookup_cell (l : label) (cols : list label) (row : list cell) : cell :=
  match cols, row with
  | c :: cols', v :: row' => if label_eqb l c then v else lookup_cell l cols' row'
  | _, _ => None
  end.

(** The rows of [df] laid out on the columns [cols]. *)
Definition realign (cols : list label) (df : DataFrame) : list (list cell) :=
  map (fun row => map (fun l => lookup_cell l (df_columns df) row) cols)
      (df_rows df).

Fixpoint drop_none {A : Type} (l : list (option A)) : list A :=
  match l with
  | [] => []
  | Some a :: l' => a :: drop_none l'
  | None :: l' => drop_none l'
  end.

(** [pd.concat(objs)]: [None] entries are dropped; an empty list, or one
    holding only [None], raises [ValueError]. *)
Definition pd_concat (objs : list (option DataFrame)) : result DataFrame :=
  match objs with
  | [] => Raise (ValueError "No objects to concatenate")
  | _ =>
      match drop_none objs with
      | [] => Raise (ValueError "All objects passed were None")
      | dfs =>
          let cols := fold_left (fun acc df => label_union acc (df_columns df)) dfs [] in
          Ok (mkDF cols (List.concat (map (realign cols) dfs)))
      end
  end.

(** ** [gdelt.Search], lines 291-460 *)

(** The attributes of a [gdelt] object that [Search] assigns; [None] is an
    attribute that has not been set. *)
Record gdelt : Type := mkgdelt {
  self_coverage : option bool;
  self_date : option pyarg;
  self_table : option string;
  self_translation : option bool;
  self_datesString : option pyarg;
  self_events_columns : option (list string);
  self_mentions_columns : option (list string);
  self_gkg_columns : option (list string);
  self_download_list : option pyarg }.

(** The object as [__init__] leaves it. *)
Definition fresh_gdelt : gdelt :=
  mkgdelt None None None None None None None None None.

(** The parts of the repository that [Search] calls and that are outside
    the three modules embedded here. [R] is the type of what [_dateRanger]
    returns; [Search] only hands it on. *)
Class Collaborators (R : Type) : Type := {
  (** [gdelt.dateFuncs._dateRanger]. *)
  _dateRanger : pyarg -> result R;
  (** [gdelt.dateFuncs._gdeltRangeString(element, coverage=...)]. *)
  _gdeltRangeString : R -> bool -> result pyarg;
  (** [gdelt.parallel._mp_worker(url, table=...)]; [Ok None] is the Python
      value [None]. *)
  _mp_worker : pyarg -> option string -> result (option DataFrame);
  (** The declared schemas, read from [data/events2.csv], [data/mentions.csv]
      and [data/gkg2.csv] or from [gdelt.getHeaders]. *)
  events_heads : list string;
  mentions_heads : list string;
  gkg_heads : list string;
  (** The order in which [pool.imap_unordered] hands back the tasks of the
      events table (line 429): the locators in their order of completion,
      some rearrangement of the download list. *)
  arrival_order : list string -> list string;
  arrival_order_perm : forall l, Permutation (arrival_order l) l
}.

Definition valid : list string := ["events"; "gkg"; "vgkg"; "iatv"; "mentions"].

Definition msg_table_name (table : string) : string :=
  "You entered " ++ dq ++ table ++ dq ++ "; this is not a valid table name."
  ++ " Choose from " ++ dq ++ "events" ++ dq ++ ", " ++ dq ++ "mentions" ++ dq
  ++ ", or " ++ dq ++ "gkg" ++ dq ++ ".".

Definition msg_no_data : string :=
  "This GDELT query returned no data. Check query parameters and retry".

(** [x in l] for strings. *)
Definition str_in (x : string) (l : list string) : bool :=
  existsb (String.eqb x) l.

(** Reading a local variable or an attribute that may not be bound. *)
Definition local {A : Type} (name : string) (v : option A) : result A :=
  match v with
  | Some a => Ok a
  | None => Raise (UnboundLocalError name)
  end.

Definition attr {A : Type} (name : string) (v : option A) : result A :=
  match v with
  | Some a => Ok a
  | None => Raise (AttributeError name)
  end.

(** Iterating over a Python argument: a list yields its elements, a [str]
    its characters. *)
Fixpoint chars (s : string) : list string :=
  match s with
  | EmptyString => []
  | String c s' => String c EmptyString :: chars s'
  end.

Definition iterate (a : pyarg) : list string :=
  match a with
  | PList l => l
  | PStr s => chars s
  end.

(** Lines 448-460: the schema is applied, or the empty-result error is
    raised.  The [elif] is entered only when [results is None], so its
    second disjunct [len(results) == 0] is never evaluated. *)
Definition apply_schema (results : option DataFrame)
    (columns : option (list string)) : result DataFrame :=
  match results with
  | Some df =>
      if Nat.eqb (List.length (df_columns df)) 57 then
        cols <- local "columns" columns ;;
        set_columns df (removelast cols)
      else
        cols <- local "columns" columns ;;
        set_columns df cols
  | None =>
      Raise (ValueError msg_no_data)
  end.

Section Search.

Context {lib : DateLib} {R : Type} {col : Collaborators R}.

(** Lines 347-373: the schema attribute set for the table. *)
Definition load_columns (self : gdelt) (table : string) : gdelt :=
  if String.eqb table "events" then
    mkgdelt (self_coverage self) (self_date self) (self_table self)
      (self_translation self) (self_datesString self)
      (Some events_heads) (self_mentions_columns self) (self_gkg_columns self)
      (self_download_list self)
  else if String.eqb table "mentions" then
    mkgdelt (self_coverage self) (self_date self) (self_table self)
      (self_translation self) (self_datesString self)
      (self_events_columns self) (Some mentions_heads) (self_gkg_columns self)
      (self_download_list self)
  else
    mkgdelt (self_coverage self) (self_date self) (self_table self)
      (self_translation self) (self_datesString self)
      (self_events_columns self) (self_mentions_columns self) (Some gkg_heads)
      (self_download_list self).

Definition set_download_list (self : gdelt) (dl : pyarg) : gdelt :=
  mkgdelt (self_coverage self) (self_date self) (self_table self)
    (self_translation self) (self_datesString self)
    (self_events_columns self) (self_mentions_columns self)
    (self_gkg_columns self) (Some dl).

(** [urlsv2X(v2Ranger(_dateRanger(self.date)))] for the table [t]. *)
Definition build_download_list (date : pyarg) (t : string)
    (coverage translation : bool) : result pyarg :=
  r <- _dateRanger date ;;
  ds <- _gdeltRangeString r coverage ;;
  _urlBuilder ds t translation.

(** One of the three blocks of lines 377-409: when the table is [t] (or
    one of [aliases]) the local [columns] and [self.download_list] are set. *)
Definition table_block (t : string) (alias : list string)
    (heads : gdelt -> option (list string)) (date : pyarg) (table : string)
    (coverage translation : bool)
    (st : gdelt * option (list string)) : result (gdelt * option (list string)) :=
  let (self, columns) := st in
  if str_in table (t :: alias) then
    columns' <- attr (t ++ "_columns") (heads self) ;;
    dl <- build_download_list date t coverage translation ;;
    Ok (set_download_list self dl, Some columns')
  else Ok (self, columns).

(** Lines 413-445: the fetch, single or pooled, and the concatenation.
    For the events table the pool delivers with [imap_unordered], in the
    order of completion; for the other tables [executor.map] keeps the
    order of the download list. *)
Definition fetch (self : gdelt) (datesString : pyarg) (table : string)
    : result (option DataFrame) :=
  let kw := if String.eqb table "events" then Some "events" else None in
  match datesString with
  | PStr _ =>
      dl <- attr "download_list" (self_download_list self) ;;
      _mp_worker dl kw
  | PList _ =>
      dl <- attr "download_list" (self_download_list self) ;;
      downloaded_dfs <-
        mapM (fun u => _mp_worker (PStr u) kw)
             (if String.eqb table "events" then arrival_order (iterate dl)
              else iterate dl) ;;
      results <- pd_concat downloaded_dfs ;;
      Ok (Some results)
  end.

(** [Search(date, table, coverage, translation)] up to line 460; the value
    is the merged table with its schema applied, and the object after the
    call.  An exception leaves the attributes set so far. *)
Definition Search (self : gdelt) (date : pyarg) (table : string)
    (coverage translation : bool) : result DataFrame * gdelt :=
  if negb (str_in table valid) then
    (Raise (ValueError (msg_table_name table)), self)
  else
    match _date_input_check date with
    | Raise e => (Raise e, self)
    | Ok _ =>
        let self1 :=
          mkgdelt (Some coverage) (Some date) (Some table) (Some translation)
            (self_datesString self) (self_events_columns self)
            (self_mentions_columns self) (self_gkg_columns self)
            (self_download_list self) in
        match (r <- _dateRanger date ;; _gdeltRangeString r coverage) with
        | Raise e => (Raise e, self1)
        | Ok datesString =>
            let self2 :=
              mkgdelt (self_coverage self1) (self_date self1) (self_table self1)
                (self_translation self1) (Some datesString)
                (self_events_columns self1) (self_mentions_columns self1)
                (self_gkg_columns self1) (self_download_list self1) in
            let self3 := load_columns self2 table in
            match table_block "events" [EmptyString] self_events_columns
                    date table coverage translation (self3, None) with
            | Raise e => (Raise e, self3)
            | Ok st1 =>
                match table_block "gkg" [] self_gkg_columns
                        date table coverage translation st1 with
                | Raise e => (Raise e, fst st1)
                | Ok st2 =>
                    match table_block "mentions" [] self_mentions_columns
                            date table coverage translation st2 with
                    | Raise e => (Raise e, fst st2)
                    | Ok (self4, columns) =>
                        (results <- fetch self4 datesString table ;;
                         apply_schema results columns, self4)
                    end
                end
            end
        end
    end.

End Search.

(** ** The proleptic Gregorian calendar, as in CPython's [datetime] *)

Definition is_leap (y : Z) : bool :=
  (y mod 4 =? 0) && (negb (y mod 100 =? 0) || (y mod 400 =? 0)).

Definition days_in_month (y m : Z) : Z :=
  if m =? 2 then (if is_leap y then 29 else 28)
  else if (m =? 4) || (m =? 6) || (m =? 9) || (m =? 11) then 30
  else 31.

Definition valid_date (d : date) : bool :=
  (1 <=? dyear d) && (1 <=? dmonth d) && (dmonth d <=? 12)
  && (1 <=? dday d) && (dday d <=? days_in_month (dyear d) (dmonth d)).

Definition valid_time (h mi s : Z) : bool :=
  (0 <=? h) && (h <? 24) && (0 <=? mi) && (mi <? 60) && (0 <=? s) && (s <? 60).

(** [_days_before_year(y)]. *)
Definition days_before_year (y : Z) : Z :=
  let p := y - 1 in p * 365 + p / 4 - p / 100 + p / 400.

(** [_days_before_month(y, m)]. *)
Definition days_before_month (y m : Z) : Z :=
  nth (Z.to_nat m) [0; 0; 31; 59; 90; 120; 151; 181; 212; 243; 273; 304; 334] 0
  + (if (2 <? m) && is_leap y then 1 else 0).

(** [date.toordinal()]. *)
Definition toordinal (d : date) : Z :=
  days_before_year (dyear d) + days_before_month (dyear d) (dmonth d) + dday d.

(** [d + timedelta(days=1)]. *)
Definition next_day (d : date) : date :=
  if dday d <? days_in_month (dyear d) (dmonth d) then
    mkdate (dyear d) (dmonth d) (dday d + 1)
  else if dmonth d <? 12 then mkdate (dyear d) (dmonth d + 1) 1
  else mkdate (dyear d + 1) 1 1.

Fixpoint days_from (n : nat) (d : date) : list date :=
  match n with
  | O => []
  | S n' => d :: days_from n' (next_day d)
  end.

(** The number of calendar days of the closed interval from [s] to [e]. *)
Definition day_count (s e : date) : Z := toordinal e - toordinal s + 1.

(** Every calendar day from [s] to [e], both included. *)
Definition date_range (s e : date) : list date :=
  days_from (Z.to_nat (day_count s e)) s.

Definition date_eqb (a b : date) : bool :=
  match date_compare a b with Eq => true | _ => false end.

(** [YYYY-MM-DD], the canonical form of a day. *)
Definition isoformat (d : date) : string :=
  digits 4 (dyear d) ++ "-" ++ digits 2 (dmonth d) ++ "-" ++ digits 2 (dday d).

(** ** The resolver and the expander of [gdelt/dateFuncs.py] *)

(** What the resolver returns: one day, or a sequence of days. *)
Inductive ranged : Type :=
| OneDay (d : date)
| Days (l : list date).

Section DateFuncs.

Context {lib : DateLib}.

(** Modelled from the spec: [gdelt.dateFuncs._dateRanger] is not among the
    embedded modules.  Section 4.2: the input resolves to a single day
    (a string, or a list of one date), to the closed range of calendar days
    between two dates, one entry per day, or, for more than two dates, to
    exactly the supplied days, each used verbatim. *)
Definition DateRangeResolver (date : pyarg) : result ranged :=
  match date with
  | PStr s => t <- py_parse s ;; Ok (OneDay (date_of t))
  | PList l =>
      ts <- mapM py_parse l ;;
      match ts with
      | [t] => Ok (OneDay (date_of t))
      | [s; e] => Ok (Days (date_range (date_of s) (date_of e)))
      | _ => Ok (Days (map date_of ts))
      end
  end.

(** The [i]-th 15-minute boundary of the day [d]. *)
Definition quarter (d : date) (i : nat) : datetime :=
  mkdt (dyear d) (dmonth d) (dday d)
       (Z.of_nat i / 4) (15 * (Z.of_nat i mod 4)) 0 0.

(** The 96 boundaries of a day, [00:00] through [23:45]. *)
Definition all_quarters (d : date) : list datetime :=
  map (quarter d) (seq 0 96).

(** Modelled from the spec: section 4.3, coverage of one day.  A day emits
    its 96 boundaries; the current calendar day is truncated to the
    boundaries that are not after the current time. *)
Definition day_quarters (d : date) : list datetime :=
  if date_eqb d (date_of now)
  then filter (fun t => negb (dt_gtb t now)) (all_quarters d)
  else all_quarters d.

(** The most recently completed 15-minute boundary at time [t]. *)
Definition last_boundary (t : datetime) : datetime :=
  mkdt (year t) (month t) (day t) (hour t) (15 * (minute t / 15)) 0 0.

(** The day-granularity string of a day. *)
Definition day_string (d : date) : string :=
  digits 4 (dyear d) ++ digits 2 (dmonth d) ++ digits 2 (dday d).

(** Modelled from the spec: [gdelt.dateFuncs._gdeltRangeString] is not
    among the embedded modules.  Section 4.3: without coverage one
    day-granularity string per day (a single string for a single day); with
    coverage the [YYYYMMDDHHMMSS] timestamps of every day, as a sequence. *)
Definition CoverageExpander (r : ranged) (coverage : bool) : result pyarg :=
  match r, coverage with
  | OneDay d, false => Ok (PStr (day_string d))
  | Days l, false => Ok (PList (map day_string l))
  | OneDay d, true => Ok (PList (map strftime_stamp (day_quarters d)))
  | Days l, true => Ok (PList (map strftime_stamp (flat_map day_quarters l)))
  end.

End DateFuncs.

(** ** A concrete date library for running the code *)

Definition obind {A B : Type} (o : option A) (k : A -> option B) : option B :=
  match o with
  | Some a => k a
  | None => None
  end.

Definition field (s : string) (i n : nat) : option Z :=
  number (String.substring i n s).

(** Is the character at index [i] one of the separators [-] and space (for
    a date) or [:] (for a time)? *)
Definition sep_at (s : string) (i : nat) (seps : list string) : bool :=
  str_in (String.substring i 1 s) seps.

Definition checked (y m d h mi se : Z) : option datetime :=
  if valid_date (mkdate y m d) && valid_time h mi se
  then Some (mkdt y m d h mi se 0)
  else None.

(** The forms [YYYYMMDD], [YYYYMMDDHHMMSS], [YYYY-MM-DD], [YYYY MM DD] and
    [YYYY-MM-DD HH:MM:SS]. *)
Definition parse_numeric (s : string) : option datetime :=
  match String.length s with
  | 8%nat =>
      obind (field s 0 4) (fun y => obind (field s 4 2) (fun m =>
      obind (field s 6 2) (fun d => checked y m d 0 0 0)))
  | 14%nat =>
      obind (field s 0 4) (fun y => obind (field s 4 2) (fun m =>
      obind (field s 6 2) (fun d => obind (field s 8 2) (fun h =>
      obind (field s 10 2) (fun mi => obind (field s 12 2) (fun se =>
      checked y m d h mi se))))))
  | 10%nat =>
      if sep_at s 4 ["-"; " "] && sep_at s 7 ["-"; " "] then
        obind (field s 0 4) (fun y => obind (field s 5 2) (fun m =>
        obind (field s 8 2) (fun d => checked y m d 0 0 0)))
      else None
  | 19%nat =>
      if sep_at s 4 ["-"] && sep_at s 7 ["-"] && sep_at s 10 [" "]
         && sep_at s 13 [":"] && sep_at s 16 [":"] then
        obind (field s 0 4) (fun y => obind (field s 5 2) (fun m =>
        obind (field s 8 2) (fun d => obind (field s 11 2) (fun h =>
        obind (field s 14 2) (fun mi => obind (field s 17 2) (fun se =>
        checked y m d h mi se))))))
      else None
  | _ => None
  end.

(** [dateutil.parser.parse] on the literals of the source and on the
    numeric forms above; every other string is treated as unparseable. *)
Definition parse_iso (s : string) : option datetime :=
  if String.eqb s "Feb 18 2015" then Some (mkdt 2015 2 18 0 0 0 0)
  else if String.eqb s "2013 Apr 01" then Some (mkdt 2013 4 1 0 0 0 0)
  else parse_numeric s.

(** [strptime(s, '%Y')] on four digits. *)
Definition strptime_Y_iso (s : string) : option datetime :=
  match String.length s with
  | 4%nat => obind (number s) (fun y => checked y 1 1 0 0 0)
  | _ => None
  end.

(** [strptime(s, '%Y%m')] on six digits. *)
Definition strptime_Ym_iso (s : string) : option datetime :=
  match String.length s with
  | 6%nat =>
      obind (field s 0 4) (fun y => obind (field s 4 2) (fun m =>
      checked y m 1 0 0 0))
  | _ => None
  end.

(** The library with the clock stopped at [t]; [_testdate] is taken to
    parse its argument. *)
Definition iso_lib (t : datetime) : DateLib :=
  {| parse := parse_iso;
     strptime_Y := strptime_Y_iso;
     strptime_Ym := strptime_Ym_iso;
     now := t;
     _testdate := parse_iso |}.

(** Noon of 15 June 2024. *)
Definition sample_now : datetime := mkdt 2024 6 15 12 7 30 0.

(** Collaborators for running [Search]: the resolver and the expander
    above, a given fetcher and given schemas; the pool delivers in the
    order of the download list. *)
Definition sample_collaborators (lib : DateLib)
    (worker : pyarg -> option string -> result (option DataFrame))
    (ev me gk : list string) : Collaborators ranged :=
  {| _dateRanger := DateRangeResolver;
     _gdeltRangeString := CoverageExpander;
     _mp_worker := worker;
     events_heads := ev;
     mentions_heads := me;
     gkg_heads := gk;
     arrival_order := fun l => l;
     arrival_order_perm := fun l => Permutation_refl l |}.

(** ** Sample data for running [Search] *)

(** The sixteen column names of the GDELT 2.0 mentions table, standing for
    the declared schema that [Search] reads from [data/mentions.csv]. *)
Definition sample_mentions_heads : list string :=
  ["GLOBALEVENTID"; "EventTimeDate"; "MentionTimeDate"; "MentionType";
   "MentionSourceName"; "MentionIdentifier"; "SentenceID"; "Actor1CharOffset";
   "Actor2CharOffset"; "ActionCharOffset"; "InRawText"; "Confidence";
   "MentionDocLen"; "MentionDocTone"; "MentionDocTranslationInfo"; "Extras"].

(** Short stand-ins for the events and gkg schemas. *)
Definition sample_events_heads : list string :=
  ["GLOBALEVENTID"; "SQLDATE"; "EventCode"; "SOURCEURL"].
Definition sample_gkg_heads : list string :=
  ["GKGRECORDID"; "DATE"; "SourceCommonName"; "Extras"].

(** A parsed file of [w] positional columns. *)
Definition positional (w : nat) (rows : list (list cell)) : DataFrame :=
  mkDF (map Pos (seq 0 w)) rows.

(** A fetcher that parses every locator into the same frame [df]. *)
Definition constant_worker (df : option DataFrame)
    : pyarg -> option string -> result (option DataFrame) :=
  fun _ _ => Ok df.

(** The collaborators of a run in which every fetch yields [df]. *)
Definition sample_run (df : option DataFrame) : Collaborators ranged :=
  sample_collaborators (iso_lib sample_now) (constant_worker df)
    sample_events_heads sample_mentions_heads sample_gkg_heads.

(** A schema of [n] names [c00], [c01], ... *)
Definition numbered_heads (n : nat) : list string :=
  map (fun i => "c" ++ digits 2 (Z.of_nat i)) (seq 0 n).

(** ** Further definitions used by the properties *)

(** The text [YYYYMMDDHHMMSS] of the [i]-th 15-minute boundary of the day
    [d], written out digit by digit. *)
Definition boundary_text (d : date) (i : nat) : string :=
  digits 4 (dyear d) ++ digits 2 (dmonth d) ++ digits 2 (dday d)
  ++ digits 2 (Z.of_nat i / 4) ++ digits 2 (15 * (Z.of_nat i mod 4)) ++ "00".

(** The index, within its day, of the last 15-minute boundary completed at
    time [t]. *)
Definition completed_quarters (t : datetime) : nat :=
  Z.to_nat (4 * hour t + minute t / 15).

(** The exceptions that [_date_input_check] can raise. *)
Definition check_errors : list exn :=
  [ParserError;
   ValueError "time data does not match format '%Y'";
   ValueError "time data does not match format '%Y%m'";
   ValueError msg_future_str; ValueError msg_min; ValueError msg_noparse;
   ValueError msg_order; ValueError msg_future_two;
   ValueError msg_future_many].

Section DeclaredHeads.
Context {R : Type} {col : Collaborators R}.
(** The declared schema of a table, as lines 347-373 load it. *)
Definition declared_heads (table : string) : list string :=
  if String.eqb table "events" then events_heads
  else if String.eqb table "mentions" then mentions_heads
  else gkg_heads.
End DeclaredHeads.

Section AfterChecks.
Context {R : Type} {col : Collaborators R}.
(** The object once lines 298-373 have run: the arguments and the expanded
    dates are stored and the schema of the table is loaded. *)
Definition after_checks (self : gdelt) (date : pyarg) (table : string)
    (coverage translation : bool) (datesString : pyarg) : gdelt :=
  load_columns
    (mkgdelt (Some coverage) (Some date) (Some table) (Some translation)
       (Some datesString) (self_events_columns self)
       (self_mentions_columns self) (self_gkg_columns self)
       (self_download_list self))
    table.
End AfterChecks.

(** The collaborators [col] with another order of arrival for the pool. *)
Definition with_arrival {R : Type} (col : Collaborators R)
    (order : list string -> list string)
    (order_perm : forall l, Permutation (order l) l) : Collaborators R :=
  {| _dateRanger := @_dateRanger R col;
     _gdeltRangeString := @_gdeltRangeString R col;
     _mp_worker := @_mp_worker R col;
     events_heads := @events_heads R col;
     mentions_heads := @mentions_heads R col;
     gkg_heads := @gkg_heads R col;
     arrival_order := order;
     arrival_order_perm := order_perm |}.

(** The paths of [Search] on which the fetched tables keep the order of
    the download list: every table but events, and events when the
    expander returns a single string. *)
Definition ordered_fetch {R : Type} {col : Collaborators R} (date : pyarg)
    (table : string) (coverage : bool) : Prop :=
  table <> "events"
  \/ forall ds,
       (x <- _dateRanger date ;; _gdeltRangeString x coverage) = Ok ds ->
       exists bucket, ds = PStr bucket.


(** [c.lower()] on an ASCII character. *)
Definition lower_char (c : ascii) : ascii :=
  let n := nat_of_ascii c in
  if (65 <=? n)%nat && (n <=? 90)%nat then ascii_of_nat (n + 32) else c.

Definition is_upper (c : ascii) : bool :=
  let n := nat_of_ascii c in (65 <=? n)%nat && (n <=? 90)%nat.

(** [s.lower()]. *)
Fixpoint lower (s : string) : string :=
  match s with
  | EmptyString => EmptyString
  | String c s' => String (lower_char c) (lower s')
  end.

(** [s.replace('_', '')] with the empty replacement. *)
Fixpoint remove_underscores (s : string) : string :=
  match s with
  | EmptyString => EmptyString
  | String c s' =>
      if Ascii.eqb c "_" then remove_underscores s'
      else String c (remove_underscores s')
  end.

(** The lambda of [base.py] line 500 and [vectorizingFuncs.py] line 130:
    [(x.replace('_', ...)).lower()]. *)
Definition normcol (x : string) : string := lower (remove_underscores x).

(** [list(map(lambda x: ..., columns))]. *)
Definition normcols (columns : list string) : list string := map normcol columns.

(** * Properties *)

(** ** Generic facts about results and lists *)

Lemma bind_Ok_inv {A B : Type} (m : result A) (k : A -> result B) (b : B) :
  bind m k = Ok b -> exists a, m = Ok a /\ k a = Ok b.
Proof.
  destruct m as [a|e]; simpl; intros H; [exists a; auto | discriminate].
Qed.

Lemma mapM_length {A B : Type} (f : A -> result B) (l : list A) (bs : list B) :
  mapM f l = Ok bs -> List.length bs = List.length l.
Proof.
  revert bs; induction l as [|a l IH]; simpl; intros bs H.
  - injection H as <-; reflexivity.
  - apply bind_Ok_inv in H as (b & _ & H).
    apply bind_Ok_inv in H as (bs' & Hbs & H).
    injection H as <-; simpl; f_equal; auto.
Qed.

Lemma mapM_Forall2 {A B : Type} (f : A -> result B) (l : list A) (bs : list B) :
  mapM f l = Ok bs -> Forall2 (fun a b => f a = Ok b) l bs.
Proof.
  revert bs; induction l as [|a l IH]; simpl; intros bs H.
  - injection H as <-; constructor.
  - apply bind_Ok_inv in H as (b & Hb & H).
    apply bind_Ok_inv in H as (bs' & Hbs & H).
    injection H as <-; constructor; auto.
Qed.

Lemma mapM_Ok {A B : Type} (f : A -> result B) (g : A -> B) (l : list A) :
  Forall (fun a => f a = Ok (g a)) l -> mapM f l = Ok (map g l).
Proof.
  induction 1 as [|a l Ha _ IH]; simpl; [reflexivity|].
  rewrite Ha; simpl; rewrite IH; reflexivity.
Qed.

Lemma Forall2_Forall_left {A B : Type} (R : A -> B -> Prop) (P : A -> Prop)
    (l : list A) (l' : list B) :
  Forall2 R l l' -> (forall a b, R a b -> P a) -> Forall P l.
Proof.
  intros H HP; induction H; constructor; eauto.
Qed.

(** ** [_date_input_check] *)

Section InputChecksFacts.

Context {lib : DateLib}.

(** Every element of [newdate] is the normalised form of the element it
    comes from, and it parses. *)
Lemma normalise_loop_Forall2 (l newdate : list string) :
  normalise_loop l = Ok newdate ->
  Forall2 (fun x n => normalise x = Ok n /\ parse n <> None) l newdate.
Proof.
  revert newdate; induction l as [|x l IH]; simpl; intros newdate H.
  - injection H as <-; constructor.
  - apply bind_Ok_inv in H as (test & Htest & H).
    unfold py_parse in H at 1.
    destruct (parse test) as [t|] eqn:Ht; simpl in H; [|discriminate].
    apply bind_Ok_inv in H as (m & _ & H).
    destruct (dt_ltb t m); [discriminate|].
    apply bind_Ok_inv in H as (nd & Hnd & H).
    injection H as <-; constructor; auto.
    split; [assumption | congruence].
Qed.

(** A list element that parses to a date before [parse('Feb 18 2015')]
    stops the loop with an exception. *)
Lemma normalise_loop_before_min (l : list string) (x n : string) (t m : datetime) :
  In x l -> normalise x = Ok n -> parse n = Some t ->
  parse "Feb 18 2015" = Some m -> dt_ltb t m = true ->
  raises_ValueError (normalise_loop l) = true.
Proof.
  intros Hin Hn Ht Hm Hlt.
  induction l as [|y l IH]; simpl in *; [contradiction|].
  destruct (normalise y) as [test|e] eqn:Hy; simpl.
  2:{ unfold normalise in Hy.
      destruct (len y =? 4).
      - unfold py_strptime_Y in Hy; destruct (strptime_Y y); simpl in Hy;
          [discriminate | injection Hy as <-; reflexivity].
      - destruct (len y =? 6).
        + unfold py_strptime_Ym in Hy; destruct (strptime_Ym y); simpl in Hy;
            [discriminate | injection Hy as <-; reflexivity].
        + discriminate. }
  unfold py_parse at 1.
  destruct (parse test) as [t'|] eqn:Ht'; simpl; [|reflexivity].
  unfold py_parse at 1; rewrite Hm; simpl.
  destruct (dt_ltb t' m) eqn:Hlt'; [reflexivity|].
  destruct Hin as [-> | Hin].
  - rewrite Hn in Hy; injection Hy as <-.
    rewrite Ht in Ht'; injection Ht' as <-; congruence.
  - specialize (IH Hin).
    destruct (normalise_loop l); simpl in *; [discriminate | assumption].
Qed.

End InputChecksFacts.

(** C10: for the empty string, [_date_input_check] returns without raising;
    no parse, future-date or minimum-date check is made, so this holds
    whatever the date library does. *)
Theorem date_input_check_empty_string (lib : DateLib) :
  _date_input_check (PStr EmptyString) = Ok RNone.
Proof. reflexivity. Qed.

(** C2 (as stated, refuted): for the one-element list [2016-10-19], which
    passes validation, the function returns [None] and not the normalised
    list that its loop has built. *)
Lemma date_input_check_not_the_list :
  let lib := iso_lib sample_now in
  normalise_loop ["2016-10-19"] = Ok ["2016-10-19 00:00:00"]
  /\ _date_input_check (PList ["2016-10-19"]) = Ok RNone
  /\ _date_input_check (PList ["2016-10-19"])
     <> Ok (RList ["2016-10-19 00:00:00"]).
Proof.
  cbv zeta; repeat split; try (vm_compute; reflexivity).
  vm_compute; discriminate.
Qed.

(** C2 (amended): whenever validation succeeds, [_date_input_check] returns
    [None]; for a list input the normalised list exists only as the local
    [newdate], one entry per input element, each the normalised and
    parseable form of that element. *)
Theorem date_input_check_returns_None (lib : DateLib) (date : pyarg) (r : retval) :
  _date_input_check date = Ok r ->
  r = RNone
  /\ forall l, date = PList l ->
       exists newdate,
         normalise_loop l = Ok newdate
         /\ List.length newdate = List.length l
         /\ Forall2 (fun x n => normalise x = Ok n /\ parse n <> None) l newdate.
Proof.
  intros H; split.
  - unfold _date_input_check, bind, try_except_raise in H.
    repeat match type of H with
           | Ok _ = Ok _ => injection H as <-; reflexivity
           | Raise _ = Ok _ => discriminate H
           | context [match ?x with _ => _ end] =>
               lazymatch x with
               | context [match _ with _ => _ end] => fail
               | _ => destruct x
               end
           end.
  - intros l ->; simpl in H.
    destruct (normalise_loop l) as [nd|e] eqn:Hnd; simpl in H; [|discriminate].
    exists nd; split; [reflexivity|].
    pose proof (normalise_loop_Forall2 l nd Hnd) as HF.
    split; [symmetry; eapply Forall2_length; eassumption | assumption].
Qed.

Lemma date_input_check_returns_None_witness :
  let lib := iso_lib sample_now in
  _date_input_check (PList ["2016"; "201610"; "2016-10-19"]) = Ok RNone
  /\ exists newdate,
       normalise_loop ["2016"; "201610"; "2016-10-19"] = Ok newdate
       /\ List.length newdate = 3%nat.
Proof.
  cbv zeta.
  assert (H : @_date_input_check (iso_lib sample_now)
                (PList ["2016"; "201610"; "2016-10-19"]) = Ok RNone)
    by (vm_compute; reflexivity).
  split; [exact H|].
  destruct (date_input_check_returns_None (iso_lib sample_now) _ _ H)
    as (_ & Hl).
  destruct (Hl _ eq_refl) as (nd & Hnd & Hlen & _).
  exists nd; split; [exact Hnd | exact Hlen].
Defined.

(** C3: the minimum-date rule is not enforced alike on every path.  With
    the clock at noon of 15 June 2024: a single string the day before the
    minimum passes validation; a list of one or two days starting exactly
    at the minimum passes; a list of three days that are exactly the minimum
    is rejected with the minimum-date message. *)
Theorem date_input_check_min_date_paths_differ :
  let lib := iso_lib sample_now in
  parse "Feb 18 2015" = Some (mkdt 2015 2 18 0 0 0 0)
  /\ _date_input_check (PStr "2015-02-17") = Ok RNone
  /\ _date_input_check (PList ["2015-02-17"]) = Raise (ValueError msg_min)
  /\ _date_input_check (PList ["2015-02-18"]) = Ok RNone
  /\ _date_input_check (PList ["2015-02-18"; "2015-02-19"]) = Ok RNone
  /\ _date_input_check (PList ["2015-02-18"; "2015-02-18"; "2015-02-18"])
     = Raise (ValueError msg_min)
  /\ _date_input_check (PList ["2015-02-18"; "2015-02-19"; "2015-02-20"])
     = Raise (ValueError msg_min).
Proof. cbv zeta; repeat split; vm_compute; reflexivity. Qed.

(** ** [_urlBuilder] *)

Lemma append_inv_head (a b c : string) : a ++ b = a ++ c -> b = c.
Proof.
  induction a as [|ch a IH]; simpl; intros H; [assumption|].
  injection H as H; auto.
Qed.

Lemma caboose_of_not_generic (table : string) (translation : bool) (caboose : string) :
  caboose_of table translation = Ok caboose -> caboose <> ".zip".
Proof.
  unfold caboose_of; intros H.
  repeat match type of H with
         | context [if ?c then _ else _] => destruct c
         end;
    try discriminate; injection H as <-; discriminate.
Qed.

(** A datetime after midnight of a day is not dated before that day. *)
Lemma after_midnight_not_before (t : datetime) (d : date) :
  dt_gtb t (midnight d) = true -> date_ltb (date_of t) d = false.
Proof.
  destruct t as [y m dd h mi s us], d as [y' m' d'].
  unfold dt_gtb, date_ltb, dt_compare, date_compare; simpl.
  destruct (y ?= y'); try discriminate; try reflexivity;
    destruct (m ?= m'); try discriminate; try reflexivity;
    destruct (dd ?= d'); try discriminate; reflexivity.
Qed.

Section UrlBuilderFacts.

Context {lib : DateLib}.

Hypothesis parse_cutover : parse "2013 04 01" = Some (midnight cutover).

Lemma mixed_locator_spec (caboose x : string) :
  _testdate x <> None ->
  mixed_locator caboose x = Ok (per_bucket_locator caboose x).
Proof.
  unfold mixed_locator, per_bucket_locator, py_testdate, py_parse.
  rewrite parse_cutover.
  destruct (_testdate x) as [t|]; [intros _ | congruence].
  cbn [bind]; change (date_of (midnight cutover)) with cutover.
  destruct (date_ltb (date_of t) cutover); reflexivity.
Qed.

Lemma all_after_cutover_locators (caboose : string) (ds : list string)
    (tested : list datetime) :
  Forall2 (fun x t => _testdate x = Some t) ds tested ->
  forallb (fun b : bool => b) (map (fun t => dt_gtb t (midnight cutover)) tested) = true ->
  map (fun x => base ++ x ++ caboose) ds = map (per_bucket_locator caboose) ds.
Proof.
  induction 1 as [|x t ds tested Hx _ IH]; cbn [map forallb]; intros Hall;
    [reflexivity|].
  apply andb_true_iff in Hall as [Ht Hall].
  rewrite IH by assumption; f_equal.
  unfold per_bucket_locator; rewrite Hx.
  rewrite (after_midnight_not_before t cutover Ht); reflexivity.
Qed.

(** On a list on which it does not raise, [_urlBuilder] agrees with the
    per-bucket rule. *)
Lemma urlBuilder_list_refines (ds : list string) (table : string)
    (translation : bool) (caboose : string) :
  caboose_of table translation = Ok caboose ->
  Forall (fun x => raises (url_normalise x) = false) ds ->
  Forall (fun x => _testdate x <> None) ds ->
  _urlBuilder (PList ds) table translation
  = Ok (PList (map (per_bucket_locator caboose) ds)).
Proof.
  intros Hc Hn Ht; unfold _urlBuilder; rewrite Hc; cbn [bind].
  assert (H1 : exists nd, mapM url_normalise ds = Ok nd).
  { clear Ht; induction Hn as [|x ds Hx _ [nd IH]]; cbn [mapM]; [eauto|].
    destruct (url_normalise x); [|discriminate]; cbn [bind].
    rewrite IH; cbn [bind]; eauto. }
  destruct H1 as [nd ->]; cbn [bind].
  assert (H2 : exists tested, mapM py_testdate ds = Ok tested
                 /\ Forall2 (fun x t => _testdate x = Some t) ds tested).
  { clear Hn; induction Ht as [|x ds Hx _ (tested & IH & HF)]; cbn [mapM].
    - exists []; auto.
    - unfold py_testdate at 1.
      destruct (_testdate x) as [t|] eqn:Et; [|congruence]; cbn [bind].
      rewrite IH; cbn [bind]; exists (t :: tested); auto. }
  destruct H2 as (tested & -> & HF); cbn [bind].
  rewrite (mapM_Ok after_cutover (fun t => dt_gtb t (midnight cutover))).
  2:{ apply Forall_forall; intros t _.
      unfold after_cutover, py_parse; rewrite parse_cutover; reflexivity. }
  cbn [bind].
  destruct (forallb _ _) eqn:Hall; cbn [negb].
  - rewrite (all_after_cutover_locators caboose ds tested HF Hall); reflexivity.
  - rewrite (mapM_Ok (mixed_locator caboose) (per_bucket_locator caboose)).
    + reflexivity.
    + eapply Forall_impl; [|exact Ht].
      intros x Hx; apply mixed_locator_spec; assumption.
Qed.

(** Conversely [_urlBuilder] returns on a list only if the table is known,
    every bucket passes the loop of lines 73-83 and [_testdate] accepts it. *)
Lemma urlBuilder_list_returns_only_if (ds : list string) (table : string)
    (translation : bool) (out : pyarg) :
  _urlBuilder (PList ds) table translation = Ok out ->
  (exists caboose, caboose_of table translation = Ok caboose)
  /\ Forall (fun x => raises (url_normalise x) = false) ds
  /\ Forall (fun x => _testdate x <> None) ds.
Proof.
  unfold _urlBuilder; intros H.
  apply bind_Ok_inv in H as (caboose & Hc & H).
  apply bind_Ok_inv in H as (nd & Hnd & H).
  apply bind_Ok_inv in H as (tested & Htested & _).
  split; [eauto|]; split.
  - apply mapM_Forall2 in Hnd.
    eapply Forall2_Forall_left; [exact Hnd|].
    intros x n Hx; rewrite Hx; reflexivity.
  - apply mapM_Forall2 in Htested.
    eapply Forall2_Forall_left; [exact Htested|].
    intros x t Hx; unfold py_testdate in Hx.
    destruct (_testdate x); [discriminate | discriminate Hx].
Qed.

End UrlBuilderFacts.

(** C5: for a list of buckets on which it does not raise, [_urlBuilder]
    returns a list of the same length; the i-th locator is the base address,
    the i-th bucket and the generic suffix [.zip] exactly when the bucket is
    dated strictly before 1 April 2013, and the suffix of the table and
    translation otherwise. *)
Theorem urlBuilder_list_per_bucket_suffix (lib : DateLib) (ds : list string)
    (table : string) (translation : bool) (caboose : string) :
  parse "2013 04 01" = Some (midnight cutover) ->
  caboose_of table translation = Ok caboose ->
  Forall (fun x => raises (url_normalise x) = false) ds ->
  Forall (fun x => _testdate x <> None) ds ->
  exists urls,
    _urlBuilder (PList ds) table translation = Ok (PList urls)
    /\ List.length urls = List.length ds
    /\ forall i x, nth_error ds i = Some x ->
         exists t u,
           _testdate x = Some t /\ nth_error urls i = Some u
           /\ (date_ltb (date_of t) cutover = true -> u = base ++ x ++ ".zip")
           /\ (date_ltb (date_of t) cutover = false -> u = base ++ x ++ caboose)
           /\ (u = base ++ x ++ ".zip" <-> date_ltb (date_of t) cutover = true).
Proof.
  intros Hcut Hc Hn Ht.
  exists (map (per_bucket_locator caboose) ds).
  split; [apply urlBuilder_list_refines; assumption|].
  split; [apply length_map|].
  intros i x Hi.
  assert (Hx : _testdate x <> None).
  { rewrite Forall_forall in Ht; apply Ht; eapply nth_error_In; eassumption. }
  destruct (_testdate x) as [t|] eqn:Et; [clear Hx | congruence].
  exists t, (per_bucket_locator caboose x).
  split; [reflexivity|].
  split; [rewrite nth_error_map, Hi; reflexivity|].
  unfold per_bucket_locator; rewrite Et.
  destruct (date_ltb (date_of t) cutover); repeat split; auto; try discriminate.
  intros H; exfalso.
  apply append_inv_head, append_inv_head in H.
  exact (caboose_of_not_generic table translation caboose Hc H).
Qed.

(** A list that spans the cutover yields both suffix styles. *)
Lemma urlBuilder_list_per_bucket_suffix_witness :
  let lib := iso_lib sample_now in
  exists urls,
    _urlBuilder (PList ["20130331"; "20130401"; "20161019234500"]) "events" false
    = Ok (PList urls)
    /\ List.length urls = 3%nat
    /\ nth_error urls 0 = Some (base ++ "20130331" ++ ".zip")
    /\ nth_error urls 1 = Some (base ++ "20130401" ++ ".export.CSV.zip").
Proof.
  cbv zeta.
  destruct (urlBuilder_list_per_bucket_suffix (iso_lib sample_now)
              ["20130331"; "20130401"; "20161019234500"] "events" false
              ".export.CSV.zip")
    as (urls & Hrun & Hlen & Hnth).
  - vm_compute; reflexivity.
  - vm_compute; reflexivity.
  - repeat constructor.
  - repeat constructor; vm_compute; discriminate.
  - assert (H : @_urlBuilder (iso_lib sample_now)
                   (PList ["20130331"; "20130401"; "20161019234500"])
                   "events" false
                 = Ok (PList [base ++ "20130331" ++ ".zip";
                              base ++ "20130401" ++ ".export.CSV.zip";
                              base ++ "20161019234500" ++ ".export.CSV.zip"]))
      by (vm_compute; reflexivity).
    exists urls; split; [exact Hrun|]; split; [exact Hlen|].
    rewrite H in Hrun; injection Hrun as <-.
    split; reflexivity.
Defined.

(** C6: for a single day string [_urlBuilder] returns one locator string:
    the base address, the day string, and the suffix fixed by the table and
    the translation flag; the six suffixes are pairwise distinct. *)
Theorem urlBuilder_single_day (lib : DateLib) (day : string) :
  _urlBuilder (PStr day) "events" false
  = Ok (PStr (base ++ day ++ ".export.CSV.zip"))
  /\ _urlBuilder (PStr day) "events" true
     = Ok (PStr (base ++ day ++ ".translation.export.CSV.zip"))
  /\ _urlBuilder (PStr day) "mentions" false
     = Ok (PStr (base ++ day ++ ".mentions.CSV.zip"))
  /\ _urlBuilder (PStr day) "mentions" true
     = Ok (PStr (base ++ day ++ ".translation.mentions.CSV.zip"))
  /\ _urlBuilder (PStr day) "gkg" false
     = Ok (PStr (base ++ day ++ ".gkg.csv.zip"))
  /\ _urlBuilder (PStr day) "gkg" true
     = Ok (PStr (base ++ day ++ ".translation.gkg.csv.zip"))
  /\ NoDup [".export.CSV.zip"; ".translation.export.CSV.zip";
            ".mentions.CSV.zip"; ".translation.mentions.CSV.zip";
            ".gkg.csv.zip"; ".translation.gkg.csv.zip"].
Proof.
  repeat split; try reflexivity.
  repeat constructor; simpl; intuition discriminate.
Qed.

(** Any other table name makes [_urlBuilder] raise a [ValueError]. *)
Lemma urlBuilder_unknown_table (lib : DateLib) (d : pyarg) (table : string)
    (translation : bool) :
  str_in table ["events"; "mentions"; "gkg"] = false ->
  _urlBuilder d table translation = Raise (ValueError msg_table_type).
Proof.
  unfold str_in, _urlBuilder, caboose_of; cbn [existsb]; intros H.
  apply orb_false_iff in H as [-> H].
  apply orb_false_iff in H as [-> H].
  apply orb_false_iff in H as [-> _].
  reflexivity.
Qed.

(** ** [Search]: table names, the merged table and its schema *)

Section SearchFacts.

Context {lib : DateLib} {R : Type} {col : Collaborators R}.

(** A table name outside [valid] is rejected first: the object is left as
    it was, no date is checked and no locator is built. *)
Lemma Search_rejects_unlisted_table (self : gdelt) (date : pyarg)
    (table : string) (coverage translation : bool) :
  str_in table valid = false ->
  Search self date table coverage translation
  = (Raise (ValueError (msg_table_name table)), self).
Proof.
  intros H; unfold Search; rewrite H; reflexivity.
Qed.

(** The names [vgkg] and [iatv] are in [valid] but in none of the three
    blocks that set [download_list]: on a new object a query that passes
    date validation ends with an [AttributeError]. *)
Lemma Search_legacy_table_unhandled (date : pyarg) (table : string)
    (coverage translation : bool) (r : retval) (ds : pyarg) :
  table = "vgkg" \/ table = "iatv" ->
  _date_input_check date = Ok r ->
  (x <- _dateRanger date ;; _gdeltRangeString x coverage) = Ok ds ->
  fst (Search fresh_gdelt date table coverage translation)
  = Raise (AttributeError "download_list").
Proof.
  intros Ht Hd Hr; unfold Search; rewrite Hd, Hr.
  destruct Ht as [-> | ->]; destruct ds; reflexivity.
Qed.

End SearchFacts.

(** When no table was fetched ([results is None]) the empty-result error
    is raised. *)
Lemma apply_schema_None (columns : option (list string)) :
  apply_schema None columns = Raise (ValueError msg_no_data).
Proof. reflexivity. Qed.

(** When a table was fetched, the empty-result error is never raised,
    however many rows the table has. *)
Lemma apply_schema_Some_no_empty_error (df : DataFrame)
    (columns : option (list string)) :
  apply_schema (Some df) columns <> Raise (ValueError msg_no_data).
Proof.
  unfold apply_schema, set_columns, local.
  destruct (Nat.eqb _ 57); destruct columns as [c|]; cbn [bind];
    try discriminate;
    match goal with |- context [if ?b then _ else _] => destruct b end;
    discriminate.
Qed.

(** C1: a fetched table without rows is not reported.  Every locator of
    the mentions query yields a parsed table of sixteen columns and no row:
    for the single day and for the three-day range alike [Search] returns
    the empty table with the schema applied, where the claim asks for the
    empty-result [ValueError]. *)
Theorem Search_empty_table_not_reported :
  let lib := iso_lib sample_now in
  let col := sample_run (Some (positional 16 [])) in
  fst (Search fresh_gdelt (PList ["2016-10-19"]) "mentions" false false)
  = Ok (mkDF (map Name sample_mentions_heads) [])
  /\ fst (Search fresh_gdelt (PList ["2016-10-19"; "2016-10-21"]) "mentions"
            false false)
     = Ok (mkDF (map Name sample_mentions_heads) [])
  /\ df_len (mkDF (map Name sample_mentions_heads) []) = 0%nat.
Proof. cbv zeta; repeat split; vm_compute; reflexivity. Qed.

(** What does hold: when every fetch yields [None], the single-day query
    raises the empty-result error and the range query fails inside
    [pd.concat]; both are [ValueError]s. *)
Lemma Search_all_None_raises :
  let lib := iso_lib sample_now in
  let col := sample_run None in
  fst (Search fresh_gdelt (PList ["2016-10-19"]) "mentions" false false)
  = Raise (ValueError msg_no_data)
  /\ fst (Search fresh_gdelt (PList ["2016-10-19"; "2016-10-21"]) "mentions"
            false false)
     = Raise (ValueError "All objects passed were None").
Proof. cbv zeta; split; vm_compute; reflexivity. Qed.

(** C7 (as stated, refuted): the merged mentions table has fifteen columns,
    one fewer than the sixteen declared names.  Dropping the last name would
    fit, but the code assigns all sixteen names and the assignment fails. *)
Lemma apply_schema_one_fewer_not_reconciled :
  let df := positional 15 [] in
  (List.length (df_columns df) + 1 = List.length sample_mentions_heads)%nat
  /\ apply_schema (Some df) (Some sample_mentions_heads)
     = Raise (ValueError msg_length_mismatch)
  /\ set_columns df (removelast sample_mentions_heads)
     = Ok (mkDF (map Name (removelast sample_mentions_heads)) [])
  /\ apply_schema (Some df) (Some sample_mentions_heads)
     <> set_columns df (removelast sample_mentions_heads).
Proof.
  cbv zeta; repeat split; try (vm_compute; reflexivity).
  vm_compute; discriminate.
Qed.

(** C7 (amended): the last declared name is dropped exactly when the merged
    table has 57 columns, and the full declared schema is assigned in every
    other case; the assignment succeeds only when the number of names fits,
    and then the rows are unchanged and the leading names keep their
    places. *)
Theorem apply_schema_drops_last_at_57 (df : DataFrame) (columns : list string) :
  (List.length (df_columns df) = 57%nat ->
     apply_schema (Some df) (Some columns) = set_columns df (removelast columns))
  /\ (List.length (df_columns df) <> 57%nat ->
     apply_schema (Some df) (Some columns) = set_columns df columns)
  /\ forall df', apply_schema (Some df) (Some columns) = Ok df' ->
       df_rows df' = df_rows df
       /\ List.length (df_columns df') = List.length (df_columns df)
       /\ (List.length (df_columns df) = 57%nat ->
             List.length columns = 58%nat
             /\ df_columns df' = map Name (firstn 57 columns))
       /\ (List.length (df_columns df) <> 57%nat ->
             df_columns df' = map Name columns).
Proof.
  unfold apply_schema; cbn [local bind].
  destruct (Nat.eqb_spec (List.length (df_columns df)) 57) as [E|E].
  - split; [reflexivity|]; split; [contradiction|].
    intros df'; unfold set_columns.
    destruct (Nat.eqb_spec (List.length (removelast columns))
                           (List.length (df_columns df))) as [E'|E'];
      [|discriminate].
    intros H; injection H as <-; cbn [df_rows df_columns].
    rewrite length_map.
    split; [reflexivity|]; split; [assumption|]; split; [|contradiction].
    intros _.
    rewrite removelast_firstn_len in E' |- *.
    rewrite E in E'.
    rewrite length_firstn in E'.
    assert (Hlen : List.length columns = 58%nat) by lia.
    rewrite Hlen; split; reflexivity.
  - split; [contradiction|]; split; [reflexivity|].
    intros df'; unfold set_columns.
    destruct (Nat.eqb_spec (List.length columns)
                           (List.length (df_columns df))) as [E'|E'];
      [|discriminate].
    intros H; injection H as <-; cbn [df_rows df_columns].
    rewrite length_map.
    split; [reflexivity|]; split; [assumption|]; split;
      [contradiction | reflexivity].
Qed.

Lemma apply_schema_drops_last_at_57_witness :
  let df := positional 57 [] in
  apply_schema (Some df) (Some (numbered_heads 58))
  = Ok (mkDF (map Name (firstn 57 (numbered_heads 58))) [])
  /\ apply_schema (Some (positional 16 [])) (Some sample_mentions_heads)
     = Ok (mkDF (map Name sample_mentions_heads) []).
Proof.
  cbv zeta; split.
  - destruct (apply_schema_drops_last_at_57 (positional 57 []) (numbered_heads 58))
      as (H57 & _ & _).
    rewrite H57 by (vm_compute; reflexivity).
    vm_compute; reflexivity.
  - destruct (apply_schema_drops_last_at_57 (positional 16 []) sample_mentions_heads)
      as (_ & Hother & _).
    rewrite Hother by (vm_compute; discriminate).
    vm_compute; reflexivity.
Defined.

(** C8: the names [vgkg] and [iatv] are not among events, mentions and gkg,
    yet the check of lines 292-296 lets them through: the query then runs
    date validation and the resolver and ends, on a new object, with an
    [AttributeError] instead of the table [ValueError]; [_urlBuilder], for
    its part, rejects both names. *)
Theorem Search_accepts_legacy_table_names :
  let lib := iso_lib sample_now in
  let col := sample_run (Some (positional 16 [])) in
  str_in "vgkg" ["events"; "mentions"; "gkg"] = false
  /\ fst (Search fresh_gdelt (PList ["2016-10-19"]) "vgkg" false false)
     = Raise (AttributeError "download_list")
  /\ fst (Search fresh_gdelt (PList ["2016-10-19"]) "iatv" false false)
     = Raise (AttributeError "download_list")
  /\ is_ValueError (AttributeError "download_list") = false
  /\ _urlBuilder (PStr "20161019") "vgkg" false = Raise (ValueError msg_table_type)
  /\ Search fresh_gdelt (PList ["2016-10-19"]) "tables" false false
     = (Raise (ValueError (msg_table_name "tables")), fresh_gdelt).
Proof. cbv zeta; repeat split; vm_compute; reflexivity. Qed.

(** ** Coverage: the 15-minute boundaries of a day *)

Lemma date_compare_Eq (a b : date) : date_compare a b = Eq -> a = b.
Proof.
  destruct a as [y m d], b as [y' m' d'].
  unfold date_compare; cbn [lex_compare date_fields dyear dmonth dday].
  destruct (Z.compare_spec y y'); try discriminate.
  destruct (Z.compare_spec m m'); try discriminate.
  destruct (Z.compare_spec d d'); try discriminate.
  intros _; congruence.
Qed.

Lemma in_all_quarters (d : date) (t : datetime) :
  In t (all_quarters d) -> exists i, (i < 96)%nat /\ t = quarter d i.
Proof.
  unfold all_quarters; rewrite in_map_iff.
  intros (i & <- & Hi); apply in_seq in Hi; exists i; split; [lia | reflexivity].
Qed.

(** A boundary of the day of [t] that is not after [t] is not after the
    last completed boundary either. *)
Lemma quarter_not_after_last_boundary (t : datetime) (i : nat) :
  dt_gtb (quarter (date_of t) i) t = false ->
  dt_gtb (quarter (date_of t) i) (last_boundary t) = false.
Proof.
  destruct t as [y m d h mi s us].
  unfold dt_gtb, dt_compare, quarter, last_boundary, date_of.
  cbn [lex_compare dt_fields year month day hour minute second microsecond
       dyear dmonth dday].
  rewrite !Z.compare_refl.
  destruct (Z.compare_spec (Z.of_nat i / 4) h) as [Eh|Lh|Gh];
    try reflexivity; try discriminate.
  destruct (Z.compare_spec (15 * (Z.of_nat i mod 4)) mi) as [Em|Lm|Gm];
    try discriminate; intros _.
  - destruct (Z.compare_spec (15 * (Z.of_nat i mod 4)) (15 * (mi / 15)));
      try reflexivity.
    exfalso; Z.div_mod_to_equations; lia.
  - destruct (Z.compare_spec (15 * (Z.of_nat i mod 4)) (15 * (mi / 15)));
      try reflexivity.
    exfalso; Z.div_mod_to_equations; lia.
Qed.

Lemma date_eqb_refl (d : date) : date_eqb d d = true.
Proof.
  destruct d as [y m dd]; unfold date_eqb, date_compare.
  cbn [lex_compare date_fields dyear dmonth dday].
  rewrite !Z.compare_refl; reflexivity.
Qed.

Lemma date_eqb_neq (a b : date) : a <> b -> date_eqb a b = false.
Proof.
  intros H; unfold date_eqb.
  destruct (date_compare a b) eqn:E; try reflexivity.
  apply date_compare_Eq in E; contradiction.
Qed.

Lemma filter_map_swap {A B : Type} (p : B -> bool) (f : A -> B) (l : list A) :
  filter p (map f l) = map f (filter (fun x => p (f x)) l).
Proof.
  induction l as [|a l IH]; cbn [map filter]; [reflexivity|].
  destruct (p (f a)); cbn [map]; rewrite IH; reflexivity.
Qed.

Lemma filter_all {A : Type} (p : A -> bool) (l : list A) :
  (forall a, In a l -> p a = true) -> filter p l = l.
Proof.
  induction l as [|a l IH]; cbn [filter]; intros H; [reflexivity|].
  rewrite (H a (or_introl eq_refl)), IH; [reflexivity|].
  intros b Hb; apply H; right; assumption.
Qed.

Lemma filter_none {A : Type} (p : A -> bool) (l : list A) :
  (forall a, In a l -> p a = false) -> filter p l = [].
Proof.
  induction l as [|a l IH]; cbn [filter]; intros H; [reflexivity|].
  rewrite (H a (or_introl eq_refl)); apply IH.
  intros b Hb; apply H; right; assumption.
Qed.

Lemma filter_leb_seq (k n : nat) :
  (k < n)%nat -> filter (fun i => (i <=? k)%nat) (seq 0 n) = seq 0 (S k).
Proof.
  intros H.
  replace n with (S k + (n - S k))%nat by lia.
  rewrite seq_app, filter_app, filter_all, filter_none.
  - apply app_nil_r.
  - intros a Ha; apply in_seq in Ha; apply Nat.leb_gt; lia.
  - intros a Ha; apply in_seq in Ha; apply Nat.leb_le; lia.
Qed.

Section CoverageToday.

Context {lib : DateLib}.

Hypothesis hour_valid : 0 <= hour now < 24.
Hypothesis minute_valid : 0 <= minute now < 60.
Hypothesis second_valid : 0 <= second now.
Hypothesis microsecond_valid : 0 <= microsecond now.

Lemma completed_quarters_bound : (completed_quarters now < 96)%nat.
Proof.
  unfold completed_quarters; Z.div_mod_to_equations; lia.
Qed.

(** A boundary of the current day is kept exactly when its index is at
    most that of the last completed boundary. *)
Lemma quarter_kept_iff (i : nat) :
  negb (dt_gtb (quarter (date_of now) i) now)
  = (i <=? completed_quarters now)%nat.
Proof.
  revert hour_valid minute_valid second_valid microsecond_valid.
  unfold completed_quarters.
  destruct now as [y m d h mi s us].
  unfold dt_gtb, dt_compare, quarter, date_of.
  cbn [lex_compare dt_fields year month day hour minute second microsecond
       dyear dmonth dday].
  rewrite !Z.compare_refl; intros Hh Hm Hs Hus.
  destruct (Nat.leb_spec i (Z.to_nat (4 * h + mi / 15)));
    destruct (Z.compare_spec (Z.of_nat i / 4) h);
    destruct (Z.compare_spec (15 * (Z.of_nat i mod 4)) mi);
    destruct (Z.compare_spec 0 s);
    destruct (Z.compare_spec 0 us);
    try reflexivity; exfalso; Z.div_mod_to_equations; lia.
Qed.

Lemma day_quarters_today :
  day_quarters (date_of now)
  = map (quarter (date_of now)) (seq 0 (S (completed_quarters now))).
Proof.
  unfold day_quarters, all_quarters; rewrite date_eqb_refl, filter_map_swap.
  f_equal.
  rewrite (filter_ext _ _ quarter_kept_iff).
  apply filter_leb_seq, completed_quarters_bound.
Qed.

End CoverageToday.

Lemma day_quarters_other_day {lib : DateLib} (d : date) :
  d <> date_of now -> day_quarters d = map (quarter d) (seq 0 96).
Proof.
  intros H; unfold day_quarters; rewrite (date_eqb_neq _ _ H); reflexivity.
Qed.

Lemma strftime_stamp_quarter (d : date) (i : nat) :
  strftime_stamp (quarter d i) = boundary_text d i.
Proof. reflexivity. Qed.

Lemma map_strftime_quarters (d : date) (n : nat) :
  map strftime_stamp (map (quarter d) (seq 0 n))
  = map (boundary_text d) (seq 0 n).
Proof.
  rewrite map_map; apply map_ext; intros i; apply strftime_stamp_quarter.
Qed.

(** C9: with coverage, and the current time fixed, a day other than the
    current one emits exactly the 96 timestamps [YYYYMMDDHHMMSS] of its
    15-minute boundaries, from 00:00:00 to 23:45:00, in order; the current
    day emits exactly the boundaries from 00:00:00 up to the last completed
    one, whose hour is the current hour and whose minute is the current
    minute rounded down to a multiple of 15; a sequence of days emits the
    timestamps of its days one after the other. *)
Theorem coverage_emits_quarters (lib : DateLib) :
  0 <= hour now < 24 -> 0 <= minute now < 60 ->
  0 <= second now -> 0 <= microsecond now ->
  (forall d, d <> date_of now ->
     CoverageExpander (OneDay d) true
     = Ok (PList (map (boundary_text d) (seq 0 96))))
  /\ (forall d,
        boundary_text d 0
        = digits 4 (dyear d) ++ digits 2 (dmonth d) ++ digits 2 (dday d)
          ++ "000000"
        /\ boundary_text d 95
           = digits 4 (dyear d) ++ digits 2 (dmonth d) ++ digits 2 (dday d)
             ++ "234500")
  /\ CoverageExpander (OneDay (date_of now)) true
     = Ok (PList (map (boundary_text (date_of now))
                      (seq 0 (S (completed_quarters now)))))
  /\ (completed_quarters now < 96)%nat
  /\ boundary_text (date_of now) (completed_quarters now)
     = digits 4 (year now) ++ digits 2 (month now) ++ digits 2 (day now)
       ++ digits 2 (hour now) ++ digits 2 (15 * (minute now / 15)) ++ "00"
  /\ (forall l, exists per_day,
        Forall2 (fun d texts =>
                   CoverageExpander (OneDay d) true = Ok (PList texts))
                l per_day
        /\ CoverageExpander (Days l) true = Ok (PList (List.concat per_day))).
Proof.
  intros Hh Hm Hs Hus.
  split.
  { intros d Hd; cbn [CoverageExpander].
    rewrite (day_quarters_other_day d Hd), map_strftime_quarters; reflexivity. }
  split; [intros d; split; reflexivity|].
  split.
  { cbn [CoverageExpander].
    rewrite (day_quarters_today Hh Hm Hs Hus), map_strftime_quarters.
    reflexivity. }
  split; [apply completed_quarters_bound; assumption|].
  split.
  { unfold boundary_text, completed_quarters, date_of;
      cbn [dyear dmonth dday].
    replace (Z.of_nat (Z.to_nat (4 * hour now + minute now / 15)) / 4)
      with (hour now) by (Z.div_mod_to_equations; lia).
    replace (Z.of_nat (Z.to_nat (4 * hour now + minute now / 15)) mod 4)
      with (minute now / 15) by (Z.div_mod_to_equations; lia).
    reflexivity. }
  intros l.
  exists (map (fun d => map strftime_stamp (day_quarters d)) l); split.
  - induction l as [|d l IH]; cbn [map]; constructor; auto.
  - cbn [CoverageExpander]; do 2 f_equal.
    rewrite flat_map_concat_map, concat_map, map_map; reflexivity.
Qed.

Lemma coverage_emits_quarters_witness :
  let lib := iso_lib sample_now in
  CoverageExpander (OneDay (mkdate 2024 6 14)) true
  = Ok (PList (map (boundary_text (mkdate 2024 6 14)) (seq 0 96)))
  /\ nth_error (map (boundary_text (mkdate 2024 6 14)) (seq 0 96)) 0
     = Some "20240614000000"
  /\ nth_error (map (boundary_text (mkdate 2024 6 14)) (seq 0 96)) 95
     = Some "20240614234500"
  /\ CoverageExpander (OneDay (mkdate 2024 6 15)) true
     = Ok (PList (map (boundary_text (mkdate 2024 6 15)) (seq 0 49)))
  /\ nth_error (map (boundary_text (mkdate 2024 6 15)) (seq 0 49)) 48
     = Some "20240615120000"
  /\ nth_error (map (boundary_text (mkdate 2024 6 15)) (seq 0 49)) 49 = None.
Proof.
  cbv zeta.
  destruct (coverage_emits_quarters (iso_lib sample_now))
    as (Hpast & _ & Htoday & _);
    try (vm_compute; split; congruence); try (vm_compute; congruence).
  split; [apply Hpast; vm_compute; discriminate|].
  split; [vm_compute; reflexivity|].
  split; [vm_compute; reflexivity|].
  split; [exact Htoday|].
  split; vm_compute; reflexivity.
Defined.

(** ** The calendar *)

Lemma valid_date_bounds (d : date) :
  valid_date d = true ->
  1 <= dyear d /\ 1 <= dmonth d <= 12
  /\ 1 <= dday d <= days_in_month (dyear d) (dmonth d).
Proof.
  unfold valid_date; rewrite !andb_true_iff, !Z.leb_le; tauto.
Qed.

Ltac month_cases m :=
  let H := fresh in
  assert (H : m = 1 \/ m = 2 \/ m = 3 \/ m = 4 \/ m = 5 \/ m = 6 \/ m = 7
              \/ m = 8 \/ m = 9 \/ m = 10 \/ m = 11 \/ m = 12) by lia;
  repeat (destruct H as [H|H]); subst m.

Lemma days_before_next_year (y : Z) :
  days_before_year (y + 1) = days_before_year y + 365 + (if is_leap y then 1 else 0).
Proof.
  unfold days_before_year, is_leap.
  replace (y + 1 - 1) with y by lia.
  destruct (Z.eqb_spec (y mod 4) 0), (Z.eqb_spec (y mod 100) 0),
    (Z.eqb_spec (y mod 400) 0); cbn [negb andb orb];
    Z.div_mod_to_equations; lia.
Qed.

Lemma days_before_year_mono (y y' : Z) :
  y <= y' -> days_before_year y <= days_before_year y'.
Proof.
  unfold days_before_year; intros H.
  Z.div_mod_to_equations; lia.
Qed.

Lemma days_before_next_month (y m : Z) :
  1 <= m <= 11 ->
  days_before_month y (m + 1) = days_before_month y m + days_in_month y m.
Proof.
  intros H; month_cases m; try lia; unfold days_before_month, days_in_month;
    destruct (is_leap y); reflexivity.
Qed.

Lemma days_before_month_mono (y m m' : Z) :
  1 <= m -> m <= m' -> m' <= 12 ->
  days_before_month y m <= days_before_month y m'.
Proof.
  intros H1 H2 H3.
  assert (Hn : exists k : nat, m' = m + Z.of_nat k)
    by (exists (Z.to_nat (m' - m)); lia).
  destruct Hn as [k ->]; clear H2.
  induction k as [|k IH]; [replace (m + Z.of_nat 0) with m by lia; lia|].
  replace (m + Z.of_nat (S k)) with (m + Z.of_nat k + 1) in * by lia.
  rewrite days_before_next_month by lia.
  assert (0 < days_in_month y (m + Z.of_nat k)).
  { unfold days_in_month.
    repeat match goal with |- context [if ?c then _ else _] => destruct c end; lia. }
  specialize (IH ltac:(lia)); lia.
Qed.

Lemma days_in_year_bound (y m : Z) :
  1 <= m <= 12 ->
  days_before_month y m + days_in_month y m
  <= 365 + (if is_leap y then 1 else 0).
Proof.
  intros H; month_cases m; unfold days_before_month, days_in_month;
    destruct (is_leap y); vm_compute; discriminate.
Qed.

Lemma days_before_month_nonneg (y m : Z) : 0 <= days_before_month y m.
Proof.
  unfold days_before_month.
  assert (0 <= nth (Z.to_nat m)
           [0; 0; 31; 59; 90; 120; 151; 181; 212; 243; 273; 304; 334] 0).
  { generalize (Z.to_nat m); intros n.
    do 14 (destruct n as [|n]; [cbn; lia|]). cbn. destruct n; lia. }
  destruct (_ && _); lia.
Qed.

(** The ordinal grows with the date. *)
Lemma toordinal_lt (a b : date) :
  valid_date a = true -> valid_date b = true ->
  date_compare a b = Lt -> toordinal a < toordinal b.
Proof.
  intros Ha Hb.
  apply valid_date_bounds in Ha, Hb.
  destruct a as [y m d], b as [y' m' d'].
  unfold date_compare, toordinal;
    cbn [lex_compare date_fields dyear dmonth dday] in *.
  destruct (Z.compare_spec y y') as [->|Hy|Hy]; try discriminate.
  - destruct (Z.compare_spec m m') as [->|Hm|Hm]; try discriminate.
    + destruct (Z.compare_spec d d'); try discriminate; intros _; lia.
    + intros _.
      pose proof (days_before_next_month y' m ltac:(lia)).
      pose proof (days_before_month_mono y' (m + 1) m' ltac:(lia) ltac:(lia) ltac:(lia)).
      lia.
  - intros _.
    pose proof (days_before_next_year y).
    pose proof (days_before_year_mono (y + 1) y' ltac:(lia)).
    pose proof (days_in_year_bound y m ltac:(lia)).
    pose proof (days_before_month_nonneg y' m').
    lia.
Qed.

Lemma date_compare_antisym (a b : date) :
  date_compare a b = Gt -> date_compare b a = Lt.
Proof.
  destruct a as [y m d], b as [y' m' d'].
  unfold date_compare; cbn [lex_compare date_fields dyear dmonth dday].
  rewrite (Z.compare_antisym y y'), (Z.compare_antisym m m'),
    (Z.compare_antisym d d').
  destruct (y ?= y'), (m ?= m'), (d ?= d'); cbn; congruence.
Qed.

(** On valid dates the order of the dates is the order of the ordinals. *)
Lemma toordinal_le_iff (a b : date) :
  valid_date a = true -> valid_date b = true ->
  (date_compare a b <> Gt <-> toordinal a <= toordinal b).
Proof.
  intros Ha Hb.
  destruct (date_compare a b) eqn:E.
  - apply date_compare_Eq in E; subst; split; [lia | discriminate].
  - pose proof (toordinal_lt a b Ha Hb E); split; [lia | discriminate].
  - apply date_compare_antisym in E.
    pose proof (toordinal_lt b a Hb Ha E); split; [congruence | lia].
Qed.

Lemma toordinal_inj (a b : date) :
  valid_date a = true -> valid_date b = true ->
  toordinal a = toordinal b -> a = b.
Proof.
  intros Ha Hb E.
  destruct (date_compare a b) eqn:C.
  - apply date_compare_Eq; assumption.
  - pose proof (toordinal_lt a b Ha Hb C); lia.
  - apply date_compare_antisym in C.
    pose proof (toordinal_lt b a Hb Ha C); lia.
Qed.

Lemma days_in_month_pos (y m : Z) : 28 <= days_in_month y m <= 31.
Proof.
  unfold days_in_month.
  repeat match goal with |- context [if ?c then _ else _] => destruct c end; lia.
Qed.

Lemma next_day_valid (d : date) :
  valid_date d = true -> valid_date (next_day d) = true.
Proof.
  intros H; apply valid_date_bounds in H.
  destruct d as [y m d]; cbn [dyear dmonth dday] in H.
  unfold next_day; cbn [dyear dmonth dday].
  destruct (Z.ltb_spec d (days_in_month y m)).
  - unfold valid_date; cbn [dyear dmonth dday].
    rewrite !andb_true_iff, !Z.leb_le; lia.
  - destruct (Z.ltb_spec m 12); unfold valid_date; cbn [dyear dmonth dday];
      rewrite !andb_true_iff, !Z.leb_le.
    + pose proof (days_in_month_pos y (m + 1)); lia.
    + pose proof (days_in_month_pos (y + 1) 1); lia.
Qed.

Lemma next_day_toordinal (d : date) :
  valid_date d = true -> toordinal (next_day d) = toordinal d + 1.
Proof.
  intros H; apply valid_date_bounds in H.
  destruct d as [y m d]; cbn [dyear dmonth dday] in H.
  unfold next_day, toordinal; cbn [dyear dmonth dday].
  destruct (Z.ltb_spec d (days_in_month y m)); cbn [dyear dmonth dday]; [lia|].
  destruct (Z.ltb_spec m 12); cbn [dyear dmonth dday].
  - rewrite days_before_next_month by lia; lia.
  - assert (m = 12) by lia; subst m.
    rewrite days_before_next_year.
    change (days_before_month (y + 1) 1) with 0.
    change (days_in_month y 12) with 31 in *.
    change (days_before_month y 12) with (334 + (if is_leap y then 1 else 0)).
    destruct (is_leap y); lia.
Qed.

Lemma next_day_later (d : date) :
  valid_date d = true -> date_ltb d (next_day d) = true.
Proof.
  intros H.
  pose proof (next_day_valid d H) as Hn.
  pose proof (next_day_toordinal d H) as Ho.
  unfold date_ltb; destruct (date_compare d (next_day d)) eqn:C.
  - apply date_compare_Eq in C; rewrite <- C in Ho; lia.
  - reflexivity.
  - apply date_compare_antisym in C.
    pose proof (toordinal_lt _ _ Hn H C); lia.
Qed.

(** ** Ranges of days *)

Lemma last_nth_error {A : Type} (l : list A) (d x : A) :
  nth_error l (List.length l - 1) = Some x -> last l d = x.
Proof.
  induction l as [|a l IH]; cbn [List.length]; [discriminate|].
  destruct l as [|b l].
  - cbn; congruence.
  - replace (S (List.length (b :: l)) - 1)%nat
      with (S (List.length (b :: l) - 1)) by (cbn [List.length]; lia).
    cbn [nth_error]; intros H; apply IH in H.
    exact H.
Qed.

Lemma days_from_length (n : nat) (d : date) : List.length (days_from n d) = n.
Proof.
  revert d; induction n as [|n IH]; intros d; cbn [days_from List.length];
    [reflexivity | rewrite IH; reflexivity].
Qed.

Lemma days_from_nth (n : nat) (d : date) (i : nat) (x : date) :
  valid_date d = true ->
  nth_error (days_from n d) i = Some x ->
  valid_date x = true /\ toordinal x = toordinal d + Z.of_nat i.
Proof.
  revert d i; induction n as [|n IH]; intros d i Hd; cbn [days_from].
  - destruct i; discriminate.
  - destruct i as [|i]; cbn [nth_error].
    + intros H; injection H as <-; split; [assumption | lia].
    + intros H.
      destruct (IH (next_day d) i (next_day_valid d Hd) H) as (Hv & Ho).
      split; [assumption|].
      rewrite Ho, next_day_toordinal by assumption; lia.
Qed.

Lemma days_from_step (n : nat) (d : date) (i : nat) (a b : date) :
  nth_error (days_from n d) i = Some a ->
  nth_error (days_from n d) (S i) = Some b ->
  b = next_day a.
Proof.
  revert d i; induction n as [|n IH]; intros d i; cbn [days_from].
  - destruct i; discriminate.
  - destruct i as [|i]; cbn [nth_error].
    + intros H; injection H as <-.
      destruct n; cbn [days_from nth_error]; [discriminate|].
      intros H; injection H as <-; reflexivity.
    + apply IH.
Qed.

Lemma days_from_In (n : nat) (d x : date) :
  valid_date d = true -> valid_date x = true ->
  toordinal d <= toordinal x < toordinal d + Z.of_nat n ->
  In x (days_from n d).
Proof.
  revert d; induction n as [|n IH]; intros d Hd Hx Hr; [lia|].
  cbn [days_from].
  destruct (Z.eq_dec (toordinal d) (toordinal x)) as [E|E].
  - left; apply toordinal_inj; assumption.
  - right; apply IH; [apply next_day_valid; assumption | assumption |].
    rewrite next_day_toordinal by assumption; lia.
Qed.

Lemma dt_ltb_date_le (s e : datetime) :
  dt_ltb s e = true -> date_compare (date_of s) (date_of e) <> Gt.
Proof.
  destruct s as [y m d h mi se us], e as [y' m' d' h' mi' se' us'].
  unfold dt_ltb, dt_compare, date_compare, date_of;
    cbn [lex_compare dt_fields date_fields year month day dyear dmonth dday].
  destruct (y ?= y'); try discriminate;
    destruct (m ?= m'); try discriminate;
    destruct (d ?= d'); discriminate.
Qed.

(** The closed range of days between two valid dates, the first not after
    the second. *)
Lemma date_range_spec (s e : date) :
  valid_date s = true -> valid_date e = true ->
  date_compare s e <> Gt ->
  Z.of_nat (List.length (date_range s e)) = day_count s e
  /\ hd_error (date_range s e) = Some s
  /\ last (date_range s e) s = e
  /\ NoDup (date_range s e)
  /\ (forall i a b, nth_error (date_range s e) i = Some a ->
        nth_error (date_range s e) (S i) = Some b ->
        b = next_day a /\ date_ltb a b = true)
  /\ (forall d, In d (date_range s e) ->
        valid_date d = true
        /\ date_compare s d <> Gt /\ date_compare d e <> Gt)
  /\ (forall d, valid_date d = true ->
        date_compare s d <> Gt -> date_compare d e <> Gt ->
        In d (date_range s e)).
Proof.
  intros Hs He Hle.
  apply (toordinal_le_iff s e Hs He) in Hle.
  unfold date_range.
  assert (Hn : Z.of_nat (Z.to_nat (day_count s e)) = day_count s e)
    by (unfold day_count; lia).
  set (n := Z.to_nat (day_count s e)) in *.
  assert (Hpos : (0 < n)%nat) by (unfold day_count in Hn; lia).
  split; [rewrite days_from_length; assumption|].
  split; [destruct n; [lia | reflexivity]|].
  split.
  { assert (Hlast : nth_error (days_from n s) (n - 1) <> None).
    { apply nth_error_Some; rewrite days_from_length; lia. }
    destruct (nth_error (days_from n s) (n - 1)) as [x|] eqn:Ex; [|congruence].
    destruct (days_from_nth n s (n - 1) x Hs Ex) as (Hv & Ho).
    assert (x = e) by (apply toordinal_inj; auto; unfold day_count in Hn; lia).
    subst x.
    apply last_nth_error.
    rewrite days_from_length; assumption. }
  split.
  { apply (proj2 (NoDup_nth_error _)).
    intros i j Hi Hij.
    destruct (nth_error (days_from n s) i) as [x|] eqn:Ei;
      [|apply nth_error_Some in Hi; contradiction].
    symmetry in Hij.
    destruct (days_from_nth n s i x Hs Ei) as (_ & Hoi).
    destruct (days_from_nth n s j x Hs Hij) as (_ & Hoj).
    lia. }
  split.
  { intros i a b Ha Hb.
    pose proof (days_from_step n s i a b Ha Hb) as ->.
    split; [reflexivity|].
    apply next_day_later.
    apply (days_from_nth n s i a Hs Ha). }
  split.
  { intros d Hd.
    apply In_nth_error in Hd as [i Hi].
    destruct (days_from_nth n s i d Hs Hi) as (Hv & Ho).
    assert (i < n)%nat.
    { rewrite <- (days_from_length n s); apply nth_error_Some; congruence. }
    split; [assumption|].
    rewrite (toordinal_le_iff s d Hs Hv), (toordinal_le_iff d e Hv He).
    unfold day_count in Hn; lia. }
  intros d Hv H1 H2.
  apply (toordinal_le_iff s d Hs Hv) in H1.
  apply (toordinal_le_iff d e Hv He) in H2.
  apply days_from_In; auto.
  unfold day_count in Hn; lia.
Qed.

(** ** The resolver *)

(** C4: two dates, the first strictly before the second, resolve to the
    closed range of calendar days between them: one entry per day, in
    ascending order, from the day of the first to the day of the second, so
    that the length is the number of days of the span; three or more dates
    resolve to exactly their own days, in the order given. *)
Theorem resolver_range_and_list (lib : DateLib) :
  (forall start stop ts te,
     parse start = Some ts -> parse stop = Some te ->
     valid_date (date_of ts) = true -> valid_date (date_of te) = true ->
     dt_ltb ts te = true ->
     exists days,
       DateRangeResolver (PList [start; stop]) = Ok (Days days)
       /\ Z.of_nat (List.length days) = day_count (date_of ts) (date_of te)
       /\ hd_error days = Some (date_of ts)
       /\ last days (date_of ts) = date_of te
       /\ NoDup days
       /\ (forall i a b, nth_error days i = Some a ->
             nth_error days (S i) = Some b ->
             b = next_day a /\ date_ltb a b = true)
       /\ (forall d, valid_date d = true ->
             (In d days <->
              date_compare (date_of ts) d <> Gt
              /\ date_compare d (date_of te) <> Gt)))
  /\ (forall l ts,
        (3 <= List.length l)%nat -> mapM py_parse l = Ok ts ->
        DateRangeResolver (PList l) = Ok (Days (map date_of ts))
        /\ List.length (map date_of ts) = List.length l).
Proof.
  split.
  - intros start stop ts te Hs He Vs Ve Hlt.
    exists (date_range (date_of ts) (date_of te)).
    split.
    { unfold DateRangeResolver; cbn [mapM]; unfold py_parse.
      rewrite Hs, He; reflexivity. }
    destruct (date_range_spec (date_of ts) (date_of te) Vs Ve
                (dt_ltb_date_le ts te Hlt))
      as (Hlen & Hhd & Hlast & Hnd & Hstep & Hin & Hall).
    repeat (split; [assumption|]).
    intros d Hd; split.
    + intros H; apply Hin in H; tauto.
    + intros [H1 H2]; apply Hall; assumption.
  - intros l ts Hlen Hts.
    pose proof (mapM_length _ _ _ Hts) as Hl.
    split; [|rewrite length_map; assumption].
    unfold DateRangeResolver; rewrite Hts; cbn [bind].
    destruct ts as [|a [|b [|c ts]]]; cbn [List.length] in Hl;
      try (exfalso; lia).
    reflexivity.
Qed.

Lemma resolver_range_and_list_witness :
  let lib := iso_lib sample_now in
  DateRangeResolver (PList ["2016-01-01"; "2016-01-03"])
  = Ok (Days [mkdate 2016 1 1; mkdate 2016 1 2; mkdate 2016 1 3])
  /\ map isoformat [mkdate 2016 1 1; mkdate 2016 1 2; mkdate 2016 1 3]
     = ["2016-01-01"; "2016-01-02"; "2016-01-03"]
  /\ day_count (mkdate 2016 1 1) (mkdate 2016 1 3) = 3
  /\ DateRangeResolver (PList ["2016-01-01"; "2016-01-03"; "2016-01-07"])
     = Ok (Days [mkdate 2016 1 1; mkdate 2016 1 3; mkdate 2016 1 7]).
Proof.
  cbv zeta.
  destruct (resolver_range_and_list (iso_lib sample_now)) as (Hrange & Hlist).
  destruct (Hrange "2016-01-01" "2016-01-03"
              (mkdt 2016 1 1 0 0 0 0) (mkdt 2016 1 3 0 0 0 0))
    as (days & Hrun & Hlen & _); try (vm_compute; reflexivity).
  destruct (Hlist ["2016-01-01"; "2016-01-03"; "2016-01-07"]
              [mkdt 2016 1 1 0 0 0 0; mkdt 2016 1 3 0 0 0 0;
               mkdt 2016 1 7 0 0 0 0])
    as (Hrun3 & _); [cbn; lia | vm_compute; reflexivity |].
  assert (E : days = [mkdate 2016 1 1; mkdate 2016 1 2; mkdate 2016 1 3]).
  { assert (H : @DateRangeResolver (iso_lib sample_now)
                  (PList ["2016-01-01"; "2016-01-03"])
                = Ok (Days [mkdate 2016 1 1; mkdate 2016 1 2; mkdate 2016 1 3]))
      by (vm_compute; reflexivity).
    rewrite H in Hrun; injection Hrun as <-; reflexivity. }
  subst days.
  split; [exact Hrun|].
  split; [vm_compute; reflexivity|].
  split; [vm_compute; reflexivity|].
  exact Hrun3.
Defined.

(** * Further properties of the code *)

(** ** More on [_date_input_check] *)

Section InputChecksWindow.

Context {lib : DateLib}.

(** What the loop of lines 54-71 has established for every element when
    it ends normally. *)
Lemma normalise_loop_sound (l newdate : list string) :
  normalise_loop l = Ok newdate ->
  Forall2 (fun x n =>
             normalise x = Ok n
             /\ exists t m, parse n = Some t /\ parse "Feb 18 2015" = Some m
                            /\ dt_ltb t m = false) l newdate.
Proof.
  revert newdate; induction l as [|x l IH]; cbn [normalise_loop]; intros newdate H.
  - injection H as <-; constructor.
  - apply bind_Ok_inv in H as (test & Htest & H).
    apply bind_Ok_inv in H as (t & Ht & H).
    apply bind_Ok_inv in H as (m & Hm & H).
    destruct (dt_ltb t m) eqn:Hlt; [discriminate|].
    apply bind_Ok_inv in H as (nd & Hnd & H).
    injection H as <-; constructor; auto.
    split; [assumption|]; exists t, m.
    unfold py_parse in Ht, Hm.
    destruct (parse test); [|discriminate]; destruct (parse "Feb 18 2015");
      [|discriminate].
    injection Ht as ->; injection Hm as ->; auto.
Qed.

Lemma mapM_parse_not_after_now (nd : list string) (ts : list datetime) :
  mapM py_parse nd = Ok ts -> none_after_now ts = true ->
  Forall (fun n => exists t, parse n = Some t /\ dt_gtb t now = false) nd.
Proof.
  intros H; apply mapM_Forall2 in H.
  induction H as [|n t nd ts Hn _ IH]; cbn [none_after_now forallb];
    intros Hall; constructor.
  - apply andb_true_iff in Hall as [Ht _].
    unfold py_parse in Hn; destruct (parse n); [|discriminate].
    injection Hn as ->; exists t; split; [reflexivity|].
    destruct (dt_gtb t now); [discriminate | reflexivity].
  - apply andb_true_iff in Hall as [_ Hall]; apply IH; exact Hall.
Qed.

(** The checks after the loop (lines 74-168) pass only if no normalised
    date is after the current time. *)
Lemma accepted_newdate_not_after_now (l newdate : list string) (r : retval) :
  normalise_loop l = Ok newdate ->
  _date_input_check (PList l) = Ok r ->
  Forall (fun n => exists t, parse n = Some t /\ dt_gtb t now = false) newdate.
Proof.
  intros Hnd H; cbn [_date_input_check] in H; rewrite Hnd in H; cbn [bind] in H.
  destruct newdate as [|d0 [|d1 [|d2 nd]]].
  - constructor.
  - unfold try_except_raise in H; cbn [String.concat] in H.
    unfold py_parse in H.
    destruct (parse d0) as [t|] eqn:Et; cbn [bind] in H; [|discriminate].
    destruct (dt_gtb t now) eqn:Eg; [discriminate|].
    repeat constructor; exists t; auto.
  - apply bind_Ok_inv in H as (_ & _ & H).
    apply bind_Ok_inv in H as (t0 & _ & H).
    apply bind_Ok_inv in H as (t1 & _ & H).
    destruct (negb (dt_ltb t0 t1)); [discriminate|].
    apply bind_Ok_inv in H as (ts & Hts & H).
    destruct (none_after_now ts) eqn:En; [|discriminate].
    eapply mapM_parse_not_after_now; eassumption.
  - apply bind_Ok_inv in H as (ts & Hts & H).
    destruct (none_after_now ts) eqn:En; [|discriminate].
    eapply mapM_parse_not_after_now; eassumption.
Qed.

End InputChecksWindow.

(** X1: a list that passes validation holds only dates inside the window:
    every element normalises to a string that parses, to a time that is
    neither before [parse('Feb 18 2015')] nor after the current time. *)
Theorem accepted_list_inside_window (lib : DateLib) (l : list string) (r : retval) :
  _date_input_check (PList l) = Ok r ->
  Forall (fun x => exists n t,
            normalise x = Ok n /\ parse n = Some t
            /\ dt_gtb t now = false
            /\ forall m, parse "Feb 18 2015" = Some m -> dt_ltb t m = false) l.
Proof.
  intros H.
  destruct (normalise_loop l) as [nd|e] eqn:Hnd;
    [|cbn [_date_input_check] in H; rewrite Hnd in H; discriminate].
  pose proof (normalise_loop_sound l nd Hnd) as HF.
  pose proof (accepted_newdate_not_after_now l nd r Hnd H) as Hnow.
  clear H Hnd.
  induction HF as [|x n l nd (Hn & t & m & Ht & Hm & Hlt) _ IH]; constructor.
  - inversion Hnow as [|? ? (t' & Ht' & Hg) _]; subst.
    exists n, t; repeat split; auto; [congruence|].
    intros m' Hm'; congruence.
  - inversion Hnow; subst; auto.
Qed.

Lemma accepted_list_inside_window_witness :
  let lib := iso_lib sample_now in
  Forall (fun x => exists n t,
            normalise x = Ok n /\ parse n = Some t
            /\ dt_gtb t now = false
            /\ forall m, parse "Feb 18 2015" = Some m -> dt_ltb t m = false)
         ["2016"; "201610"; "2016-10-19"].
Proof.
  cbv zeta.
  apply (accepted_list_inside_window (iso_lib sample_now) _ RNone).
  vm_compute; reflexivity.
Defined.

Ltac raised H :=
  injection H as <-; unfold check_errors;
  repeat first [left; reflexivity | right].

Section InputChecksErrors.

Context {lib : DateLib}.

Lemma normalise_errors (x : string) (e : exn) :
  normalise x = Raise e -> In e check_errors.
Proof.
  unfold normalise, py_strptime_Y, py_strptime_Ym.
  destruct (len x =? 4); [destruct (strptime_Y x); cbn [bind]; intros H;
                          [discriminate | raised H]|].
  destruct (len x =? 6); [destruct (strptime_Ym x); cbn [bind]; intros H;
                          [discriminate | raised H]|].
  discriminate.
Qed.

Lemma py_parse_errors (s : string) (e : exn) :
  py_parse s = Raise e -> In e check_errors.
Proof.
  unfold py_parse; destruct (parse s); intros H; [discriminate | raised H].
Qed.

Lemma normalise_loop_errors (l : list string) (e : exn) :
  normalise_loop l = Raise e -> In e check_errors.
Proof.
  induction l as [|x l IH]; cbn [normalise_loop]; [discriminate|].
  destruct (normalise x) as [test|e1] eqn:E1; cbn [bind].
  2:{ intros H; injection H as <-; eapply normalise_errors; eassumption. }
  destruct (py_parse test) as [t|e2] eqn:E2; cbn [bind].
  2:{ intros H; injection H as <-; eapply py_parse_errors; eassumption. }
  destruct (py_parse "Feb 18 2015") as [m|e3] eqn:E3; cbn [bind].
  2:{ intros H; injection H as <-; eapply py_parse_errors; eassumption. }
  destruct (dt_ltb t m); [intros H; raised H|].
  destruct (normalise_loop l) as [nd|e4]; cbn [bind]; [discriminate|].
  intros H; injection H as <-; apply IH; reflexivity.
Qed.

Lemma mapM_parse_errors (l : list string) (e : exn) :
  mapM py_parse l = Raise e -> In e check_errors.
Proof.
  induction l as [|x l IH]; cbn [mapM]; [discriminate|].
  destruct (py_parse x) as [t|e1] eqn:E1; cbn [bind].
  2:{ intros H; injection H as <-; eapply py_parse_errors; eassumption. }
  destruct (mapM py_parse l); cbn [bind]; [discriminate|].
  intros H; injection H as <-; apply IH; reflexivity.
Qed.

(** Whatever [_date_input_check] raises is one of [check_errors]. *)
Lemma date_input_check_errors (date : pyarg) (e : exn) :
  _date_input_check date = Raise e -> In e check_errors.
Proof.
  destruct date as [s|l]; cbn [_date_input_check].
  - destruct (String.eqb s EmptyString); [discriminate|].
    destruct (py_parse s) as [t|e1] eqn:E1; cbn [bind].
    + destruct (dt_gtb t now); [|discriminate].
      intros H; raised H.
    + intros H; injection H as <-; eapply py_parse_errors; eassumption.
  - destruct (normalise_loop l) as [nd|e1] eqn:E1; cbn [bind].
    2:{ intros H; injection H as <-; eapply normalise_loop_errors; eassumption. }
    destruct nd as [|d0 [|d1 [|d2 nd]]].
    + discriminate.
    + unfold try_except_raise.
      destruct (bind _ _); intros H; [discriminate | raised H].
    + unfold try_except_raise at 1.
      destruct (mapM py_parse [d0; d1]) as [ts|e2] eqn:E2; cbn [bind].
      2:{ intros H; raised H. }
      destruct (py_parse d0) as [t0|e3] eqn:E3; cbn [bind].
      2:{ intros H; injection H as <-; eapply py_parse_errors; eassumption. }
      destruct (py_parse d1) as [t1|e4] eqn:E4; cbn [bind].
      2:{ intros H; injection H as <-; eapply py_parse_errors; eassumption. }
      destruct (negb (dt_ltb t0 t1)); [intros H; raised H|].
      destruct (negb (none_after_now ts)); [|discriminate].
      intros H; raised H.
    + destruct (mapM py_parse (d0 :: d1 :: d2 :: nd)) as [ts|e2] eqn:E2; cbn [bind].
      2:{ intros H; injection H as <-; eapply mapM_parse_errors; eassumption. }
      destruct (negb (none_after_now ts)); [intros H; raised H|].
      destruct (py_parse "Feb 18 2015") as [m|e3] eqn:E3; cbn [bind].
      2:{ intros H; injection H as <-; eapply py_parse_errors; eassumption. }
      destruct (existsb _ ts); [|discriminate].
      intros H; raised H.
Qed.

(** A member of the input has its normalised form in [newdate]. *)
Lemma normalise_loop_member (l newdate : list string) (x n : string) :
  normalise_loop l = Ok newdate -> In x l -> normalise x = Ok n -> In n newdate.
Proof.
  intros H; apply normalise_loop_Forall2 in H.
  induction H as [|y n' l nd (Hy & _) _ IH]; cbn [In]; [tauto|].
  intros [-> | Hin] Hn; [left; congruence | right; auto].
Qed.

End InputChecksErrors.

Section InputChecksPaths.

Context {lib : DateLib}.

(** The loop ends normally on elements that normalise and parse to times
    not before the minimum. *)
Lemma normalise_loop_complete (l newdate : list string) (m : datetime) :
  parse "Feb 18 2015" = Some m ->
  Forall2 (fun x n => normalise x = Ok n
                      /\ exists t, parse n = Some t /\ dt_ltb t m = false)
          l newdate ->
  normalise_loop l = Ok newdate.
Proof.
  intros Hm H.
  induction H as [|x n l nd (Hn & t & Ht & Hlt) _ IH]; cbn [normalise_loop];
    [reflexivity|].
  rewrite Hn; cbn [bind]; unfold py_parse; rewrite Ht, Hm; cbn [bind].
  rewrite Hlt; fold py_parse; rewrite IH; reflexivity.
Qed.

Lemma date_pair_checks (l : list string) (n0 n1 : string) (t0 t1 : datetime) :
  normalise_loop l = Ok [n0; n1] ->
  parse n0 = Some t0 -> parse n1 = Some t1 ->
  _date_input_check (PList l)
  = if negb (dt_ltb t0 t1) then Raise (ValueError msg_order)
    else if negb (none_after_now [t0; t1]) then Raise (ValueError msg_future_two)
    else Ok RNone.
Proof.
  intros Hnd H0 H1; cbn [_date_input_check]; rewrite Hnd; cbn [bind mapM].
  unfold py_parse, try_except_raise; rewrite H0, H1; cbn [bind].
  reflexivity.
Qed.

End InputChecksPaths.

(** X2: a list of two dates passes validation exactly when both elements
    normalise and parse, neither is before the minimum date, the first is
    strictly before the second, and neither is after the current time. *)
Theorem date_pair_accepted_iff (lib : DateLib) (a b : string) :
  _date_input_check (PList [a; b]) = Ok RNone
  <-> exists n0 n1 t0 t1 m,
        normalise a = Ok n0 /\ normalise b = Ok n1
        /\ parse n0 = Some t0 /\ parse n1 = Some t1
        /\ parse "Feb 18 2015" = Some m
        /\ dt_ltb t0 m = false /\ dt_ltb t1 m = false
        /\ dt_ltb t0 t1 = true
        /\ dt_gtb t0 now = false /\ dt_gtb t1 now = false.
Proof.
  split.
  - intros H.
    destruct (normalise_loop [a; b]) as [nd|e] eqn:Hnd;
      [|cbn [_date_input_check] in H; rewrite Hnd in H; discriminate].
    pose proof (normalise_loop_sound _ _ Hnd) as HF.
    inversion HF as [|? n0 ? ? (Hn0 & t0 & m & Ht0 & Hm & Hl0) HF']; subst.
    inversion HF' as [|? n1 ? ? (Hn1 & t1 & m' & Ht1 & Hm' & Hl1) HF'']; subst.
    inversion HF''; subst.
    rewrite (date_pair_checks _ n0 n1 t0 t1 Hnd Ht0 Ht1) in H.
    destruct (dt_ltb t0 t1) eqn:Elt; cbn [negb] in H; [|discriminate].
    destruct (none_after_now [t0; t1]) eqn:En; cbn [negb] in H; [|discriminate].
    cbn [none_after_now forallb] in En.
    apply andb_true_iff in En as [E0 En]; apply andb_true_iff in En as [E1 _].
    apply negb_true_iff in E0, E1.
    exists n0, n1, t0, t1, m; repeat split; auto; congruence.
  - intros (n0 & n1 & t0 & t1 & m & Hn0 & Hn1 & Ht0 & Ht1 & Hm & Hl0 & Hl1
            & Hlt & Hg0 & Hg1).
    assert (Hnd : normalise_loop [a; b] = Ok [n0; n1]).
    { apply (normalise_loop_complete _ _ m Hm); repeat constructor; eauto. }
    rewrite (date_pair_checks _ n0 n1 t0 t1 Hnd Ht0 Ht1).
    cbn [none_after_now forallb]; rewrite Hlt, Hg0, Hg1; reflexivity.
Qed.

(** X3: a pair of dates whose first is not strictly before the second
    (equal days included) is rejected with the start-and-end message,
    whether or not the dates are after the current time. *)
Theorem date_pair_not_ordered_rejected (lib : DateLib) (a b n0 n1 : string)
    (t0 t1 m : datetime) :
  normalise a = Ok n0 -> normalise b = Ok n1 ->
  parse n0 = Some t0 -> parse n1 = Some t1 ->
  parse "Feb 18 2015" = Some m ->
  dt_ltb t0 m = false -> dt_ltb t1 m = false ->
  dt_ltb t0 t1 = false ->
  _date_input_check (PList [a; b]) = Raise (ValueError msg_order).
Proof.
  intros Hn0 Hn1 Ht0 Ht1 Hm Hl0 Hl1 Hlt.
  assert (Hnd : normalise_loop [a; b] = Ok [n0; n1]).
  { apply (normalise_loop_complete _ _ m Hm); repeat constructor; eauto. }
  rewrite (date_pair_checks _ n0 n1 t0 t1 Hnd Ht0 Ht1), Hlt; reflexivity.
Qed.

Lemma date_pair_not_ordered_rejected_witness :
  let lib := iso_lib sample_now in
  _date_input_check (PList ["2016-10-19"; "2016-10-19"])
  = Raise (ValueError msg_order)
  /\ _date_input_check (PList ["2030-01-02"; "2030-01-01"])
     = Raise (ValueError msg_order).
Proof.
  cbv zeta; split.
  - apply (date_pair_not_ordered_rejected (iso_lib sample_now)
             "2016-10-19" "2016-10-19" "2016-10-19 00:00:00" "2016-10-19 00:00:00"
             (mkdt 2016 10 19 0 0 0 0) (mkdt 2016 10 19 0 0 0 0)
             (mkdt 2015 2 18 0 0 0 0)); vm_compute; reflexivity.
  - apply (date_pair_not_ordered_rejected (iso_lib sample_now)
             "2030-01-02" "2030-01-01" "2030-01-02 00:00:00" "2030-01-01 00:00:00"
             (mkdt 2030 1 2 0 0 0 0) (mkdt 2030 1 1 0 0 0 0)
             (mkdt 2015 2 18 0 0 0 0)); vm_compute; reflexivity.
Defined.

(** X4: a one-element list whose date is after the current time is
    rejected with the does-not-parse message: the future-date error raised
    inside the [try] is caught by the bare [except], so that message never
    leaves the function. *)
Theorem single_future_date_reported_as_unparseable (lib : DateLib) :
  (forall a n t m,
     normalise a = Ok n -> parse n = Some t ->
     parse "Feb 18 2015" = Some m -> dt_ltb t m = false ->
     dt_gtb t now = true ->
     _date_input_check (PList [a]) = Raise (ValueError msg_noparse))
  /\ (forall date, _date_input_check date <> Raise (ValueError msg_future_one)).
Proof.
  split.
  - intros a n t m Hn Ht Hm Hl Hg.
    assert (Hnd : normalise_loop [a] = Ok [n]).
    { apply (normalise_loop_complete _ _ m Hm); repeat constructor; eauto. }
    cbn [_date_input_check]; rewrite Hnd; cbn [bind String.concat].
    unfold py_parse; rewrite Ht; cbn [bind]; rewrite Hg; reflexivity.
  - intros date H; apply date_input_check_errors in H.
    unfold check_errors in H; cbn [In] in H.
    repeat (destruct H as [H | H]; [discriminate H|]); contradiction.
Qed.

Lemma single_future_date_reported_as_unparseable_witness :
  let lib := iso_lib sample_now in
  _date_input_check (PList ["2030-01-01"]) = Raise (ValueError msg_noparse)
  /\ _date_input_check (PStr "2030-01-01") = Raise (ValueError msg_future_str).
Proof.
  cbv zeta; split; [|vm_compute; reflexivity].
  destruct (single_future_date_reported_as_unparseable (iso_lib sample_now))
    as (H & _).
  apply (H "2030-01-01" "2030-01-01 00:00:00" (mkdt 2030 1 1 0 0 0 0)
           (mkdt 2015 2 18 0 0 0 0)); vm_compute; reflexivity.
Defined.

Section InputChecksMany.

Context {lib : DateLib}.

Lemma mapM_parse_all_after (nd : list string) (ts : list datetime) (m : datetime) :
  mapM py_parse nd = Ok ts ->
  existsb (fun t => negb (dt_gtb t m)) ts = false ->
  Forall (fun n => exists t, parse n = Some t /\ dt_gtb t m = true) nd.
Proof.
  intros H; apply mapM_Forall2 in H.
  induction H as [|n t nd ts Hn _ IH]; cbn [existsb]; intros Hall; constructor.
  - apply orb_false_iff in Hall as [Ht _].
    unfold py_parse in Hn; destruct (parse n); [|discriminate].
    injection Hn as ->; exists t; split; [reflexivity|].
    destruct (dt_gtb t m); [reflexivity | discriminate].
  - apply orb_false_iff in Hall as [_ Hall]; apply IH; exact Hall.
Qed.

End InputChecksMany.

(** X5: in a list of three or more dates that passes validation every date
    is strictly after [parse('Feb 18 2015')]: on this path the minimum date
    itself is refused. *)
Theorem three_or_more_dates_strictly_after_min (lib : DateLib)
    (l : list string) (r : retval) (m : datetime) :
  (3 <= List.length l)%nat ->
  parse "Feb 18 2015" = Some m ->
  _date_input_check (PList l) = Ok r ->
  Forall (fun x => exists n t,
            normalise x = Ok n /\ parse n = Some t /\ dt_gtb t m = true) l.
Proof.
  intros Hlen Hm H.
  destruct (normalise_loop l) as [nd|e] eqn:Hnd;
    [|cbn [_date_input_check] in H; rewrite Hnd in H; discriminate].
  pose proof (normalise_loop_Forall2 l nd Hnd) as HF.
  assert (Hafter : Forall (fun n => exists t, parse n = Some t
                                              /\ dt_gtb t m = true) nd).
  { cbn [_date_input_check] in H; rewrite Hnd in H; cbn [bind] in H.
    pose proof (Forall2_length HF) as Hl.
    destruct nd as [|d0 [|d1 [|d2 nd]]]; cbn [List.length] in Hl;
      try (exfalso; lia).
    apply bind_Ok_inv in H as (ts & Hts & H).
    destruct (negb (none_after_now ts)); [discriminate|].
    rewrite Hts in H; cbn [bind] in H.
    unfold py_parse in H; rewrite Hm in H; cbn [bind] in H.
    destruct (existsb _ ts) eqn:Ex; [discriminate|].
    eapply mapM_parse_all_after; eassumption. }
  clear H Hnd Hlen.
  induction HF as [|x n l nd (Hn & _) _ IH]; constructor.
  - inversion Hafter as [|? ? (t & Ht & Hg) _]; subst.
    exists n, t; auto.
  - inversion Hafter; subst; auto.
Qed.

Lemma three_or_more_dates_strictly_after_min_witness :
  let lib := iso_lib sample_now in
  Forall (fun x => exists n t,
            normalise x = Ok n /\ parse n = Some t
            /\ dt_gtb t (mkdt 2015 2 18 0 0 0 0) = true)
         ["2015-02-19"; "2016-10-19"; "2016-10-21"].
Proof.
  cbv zeta.
  apply (three_or_more_dates_strictly_after_min (iso_lib sample_now) _ RNone).
  - cbn; lia.
  - vm_compute; reflexivity.
  - vm_compute; reflexivity.
Defined.

(** X6: a list that holds, at any position, a date before
    [parse('Feb 18 2015')] never passes validation, whatever its length and
    its other elements; when the elements in front of that date normalise
    and parse to dates that are not before the minimum, the exception is
    the minimum-date [ValueError]. *)
Theorem list_with_early_date_rejected (lib : DateLib) (pre post : list string)
    (x n : string) (t m : datetime) :
  normalise x = Ok n -> parse n = Some t ->
  parse "Feb 18 2015" = Some m -> dt_ltb t m = true ->
  (forall r, _date_input_check (PList (pre ++ x :: post)) <> Ok r)
  /\ (Forall (fun y => exists ny ty,
                 normalise y = Ok ny /\ parse ny = Some ty
                 /\ dt_ltb ty m = false) pre ->
      _date_input_check (PList (pre ++ x :: post))
      = Raise (ValueError msg_min)).
Proof.
  intros Hn Ht Hm Hlt; split.
  - intros r H.
    pose proof (normalise_loop_before_min (pre ++ x :: post) x n t m
                  (in_elt x pre post) Hn Ht Hm Hlt) as Hr.
    cbn [_date_input_check] in H.
    destruct (normalise_loop (pre ++ x :: post)); [discriminate Hr|].
    discriminate H.
  - intros Hpre.
    assert (Hloop : normalise_loop (pre ++ x :: post)
                    = Raise (ValueError msg_min)).
    { induction Hpre as [|y pre (ny & ty & Hny & Hty & Hly) _ IH];
        cbn [app normalise_loop].
      - rewrite Hn; cbn [bind]; unfold py_parse; rewrite Ht, Hm; cbn [bind].
        rewrite Hlt; reflexivity.
      - rewrite Hny; cbn [bind]; unfold py_parse; rewrite Hty, Hm; cbn [bind].
        rewrite Hly; fold py_parse; rewrite IH; reflexivity. }
    cbn [_date_input_check]; rewrite Hloop; reflexivity.
Qed.

Lemma list_with_early_date_rejected_witness :
  let lib := iso_lib sample_now in
  _date_input_check (PList ["2016-10-19"; "2015-02-17"; "2016-10-21"])
  = Raise (ValueError msg_min).
Proof.
  cbv zeta.
  destruct (list_with_early_date_rejected (iso_lib sample_now)
              ["2016-10-19"] ["2016-10-21"]
              "2015-02-17" "2015-02-17 00:00:00" (mkdt 2015 2 17 0 0 0 0)
              (mkdt 2015 2 18 0 0 0 0))
    as (_ & H);
    [vm_compute; reflexivity | vm_compute; reflexivity
    | vm_compute; reflexivity | vm_compute; reflexivity |].
  apply H; repeat constructor.
  exists "2016-10-19 00:00:00", (mkdt 2016 10 19 0 0 0 0).
  repeat split; vm_compute; reflexivity.
Defined.

(** X7: a date after the current time never passes validation: a
    non-empty string that parses to such a time is rejected with the
    future-date message, and a list that holds such a date at any position
    does not pass, whatever its length and its other elements. *)
Theorem future_date_rejected (lib : DateLib) :
  (forall s t,
     s <> EmptyString -> parse s = Some t -> dt_gtb t now = true ->
     _date_input_check (PStr s) = Raise (ValueError msg_future_str))
  /\ (forall l x n t,
        In x l -> normalise x = Ok n -> parse n = Some t ->
        dt_gtb t now = true ->
        forall r, _date_input_check (PList l) <> Ok r).
Proof.
  split.
  - intros s t Hs Ht Hg; cbn [_date_input_check].
    destruct (String.eqb_spec s EmptyString); [contradiction|].
    unfold py_parse; rewrite Ht; cbn [bind]; rewrite Hg; reflexivity.
  - intros l x n t Hin Hn Ht Hg r H.
    destruct (normalise_loop l) as [nd|e] eqn:Hnd;
      [|cbn [_date_input_check] in H; rewrite Hnd in H; discriminate].
    pose proof (accepted_newdate_not_after_now l nd r Hnd H) as Hnow.
    pose proof (normalise_loop_member l nd x n Hnd Hin Hn) as Hmem.
    rewrite Forall_forall in Hnow.
    destruct (Hnow n Hmem) as (t' & Ht' & Hg'); congruence.
Qed.

Lemma future_date_rejected_witness :
  let lib := iso_lib sample_now in
  _date_input_check (PStr "2030-01-01") = Raise (ValueError msg_future_str)
  /\ forall r,
       _date_input_check (PList ["2016-10-19"; "2016-10-21"; "2030-01-01"])
       <> Ok r.
Proof.
  cbv zeta.
  destruct (future_date_rejected (iso_lib sample_now)) as (Hs & Hl).
  split.
  - apply (Hs "2030-01-01" (mkdt 2030 1 1 0 0 0 0));
      [discriminate | vm_compute; reflexivity | vm_compute; reflexivity].
  - apply (Hl _ "2030-01-01" "2030-01-01 00:00:00" (mkdt 2030 1 1 0 0 0 0)).
    + right; right; left; reflexivity.
    + vm_compute; reflexivity.
    + vm_compute; reflexivity.
    + vm_compute; reflexivity.
Defined.

(** ** More on [_urlBuilder] *)

Lemma length_append (a b : string) :
  String.length (a ++ b) = (String.length a + String.length b)%nat.
Proof.
  induction a as [|c a IH]; cbn [String.append String.length];
    [reflexivity | rewrite IH; reflexivity].
Qed.

Lemma append_inv_tail (a b c : string) : a ++ c = b ++ c -> a = b.
Proof.
  revert b; induction a as [|x a IH]; intros [|y b] H.
  - reflexivity.
  - apply (f_equal String.length) in H.
    cbn [String.append String.length] in H; rewrite length_append in H; lia.
  - apply (f_equal String.length) in H.
    cbn [String.append String.length] in H; rewrite length_append in H; lia.
  - cbn [String.append] in H; injection H as -> H.
    f_equal; apply IH; assumption.
Qed.

(** The suffix determines the table and the translation flag. *)
Lemma caboose_of_inj (t1 t2 : string) (tr1 tr2 : bool) (c : string) :
  caboose_of t1 tr1 = Ok c -> caboose_of t2 tr2 = Ok c ->
  t1 = t2 /\ tr1 = tr2.
Proof.
  unfold caboose_of.
  destruct (String.eqb_spec t1 "events") as [->|_];
    [|destruct (String.eqb_spec t1 "mentions") as [->|_];
      [|destruct (String.eqb_spec t1 "gkg") as [->|_]; [|discriminate]]];
    (destruct (String.eqb_spec t2 "events") as [->|_];
     [|destruct (String.eqb_spec t2 "mentions") as [->|_];
       [|destruct (String.eqb_spec t2 "gkg") as [->|_]; [|discriminate]]]);
    destruct tr1, tr2; cbn [negb]; intros H1 H2;
    injection H1 as <-; try discriminate H2; split; reflexivity.
Qed.

(** X8: a string and the one-element list of that string are treated
    differently.  The list form applies the cutover rule; the string form
    always uses the suffix of the table, so the two locators agree exactly
    when the bucket is not dated before 1 April 2013. *)
Theorem urlBuilder_string_ignores_cutover (lib : DateLib) (x : string)
    (table : string) (translation : bool) (caboose : string) (t : datetime) :
  parse "2013 04 01" = Some (midnight cutover) ->
  caboose_of table translation = Ok caboose ->
  raises (url_normalise x) = false ->
  _testdate x = Some t ->
  exists u,
    _urlBuilder (PList [x]) table translation = Ok (PList [u])
    /\ _urlBuilder (PStr x) table translation = Ok (PStr (base ++ x ++ caboose))
    /\ (u = base ++ x ++ caboose <-> date_ltb (date_of t) cutover = false).
Proof.
  intros Hcut Hc Hn Ht.
  exists (per_bucket_locator caboose x).
  split.
  { apply (urlBuilder_list_refines Hcut [x] table translation caboose Hc).
    - repeat constructor; assumption.
    - repeat constructor; congruence. }
  split; [unfold _urlBuilder; rewrite Hc; reflexivity|].
  unfold per_bucket_locator; rewrite Ht.
  destruct (date_ltb (date_of t) cutover); split; auto; try discriminate.
  intros H; exfalso.
  apply append_inv_head, append_inv_head in H.
  exact (caboose_of_not_generic table translation caboose Hc (eq_sym H)).
Qed.

Lemma urlBuilder_string_ignores_cutover_witness :
  let lib := iso_lib sample_now in
  _urlBuilder (PList ["20130331"]) "gkg" false
  = Ok (PList [base ++ "20130331" ++ ".zip"])
  /\ _urlBuilder (PStr "20130331") "gkg" false
     = Ok (PStr (base ++ "20130331" ++ ".gkg.csv.zip")).
Proof.
  cbv zeta.
  destruct (urlBuilder_string_ignores_cutover (iso_lib sample_now) "20130331"
              "gkg" false ".gkg.csv.zip" (mkdt 2013 3 31 0 0 0 0))
    as (u & Hl & Hs & _); try (vm_compute; reflexivity).
  split; [vm_compute; reflexivity | exact Hs].
Defined.

(** X9: the table is looked at before the dates.  For a table other than
    events, mentions and gkg every call raises the table [ValueError],
    whatever the date argument; for these three a string argument never
    raises. *)
Theorem urlBuilder_table_checked_first (lib : DateLib) (table : string)
    (translation : bool) :
  (str_in table ["events"; "mentions"; "gkg"] = false ->
     forall d, _urlBuilder d table translation = Raise (ValueError msg_table_type))
  /\ (str_in table ["events"; "mentions"; "gkg"] = true ->
     forall s, exists caboose,
       caboose_of table translation = Ok caboose
       /\ _urlBuilder (PStr s) table translation
          = Ok (PStr (base ++ s ++ caboose))).
Proof.
  split.
  - intros H d; apply urlBuilder_unknown_table; assumption.
  - unfold str_in; cbn [existsb]; intros H s.
    unfold _urlBuilder, caboose_of.
    destruct (String.eqb table "events"); [eexists; split; reflexivity|].
    destruct (String.eqb table "mentions"); [eexists; split; reflexivity|].
    destruct (String.eqb table "gkg"); [eexists; split; reflexivity|].
    discriminate H.
Qed.

Lemma urlBuilder_table_checked_first_witness :
  let lib := iso_lib sample_now in
  _urlBuilder (PList ["not a date"]) "vgkg" true
  = Raise (ValueError msg_table_type)
  /\ exists caboose,
       _urlBuilder (PStr "not a date") "mentions" true
       = Ok (PStr (base ++ "not a date" ++ caboose)).
Proof.
  cbv zeta.
  destruct (urlBuilder_table_checked_first (iso_lib sample_now) "vgkg" true)
    as (Hbad & _).
  destruct (urlBuilder_table_checked_first (iso_lib sample_now) "mentions" true)
    as (_ & Hgood).
  split; [apply Hbad; vm_compute; reflexivity|].
  destruct (Hgood ltac:(vm_compute; reflexivity) "not a date") as (c & _ & H).
  exists c; exact H.
Defined.

(** X10: for string arguments the locator determines the query: two day
    strings with the same table and flag that give the same locator are
    equal, and one day string gives the same locator only for the same
    table and the same translation flag. *)
Theorem urlBuilder_locator_injective (lib : DateLib) (a b : string)
    (t1 t2 : string) (tr1 tr2 : bool) (u : pyarg) :
  (_urlBuilder (PStr a) t1 tr1 = Ok u -> _urlBuilder (PStr b) t1 tr1 = Ok u ->
   a = b)
  /\ (_urlBuilder (PStr a) t1 tr1 = Ok u -> _urlBuilder (PStr a) t2 tr2 = Ok u ->
      t1 = t2 /\ tr1 = tr2).
Proof.
  unfold _urlBuilder; split; intros H1 H2.
  - destruct (caboose_of t1 tr1) as [c|]; cbn [bind] in *; [|discriminate].
    rewrite <- H2 in H1.
    assert (H : base ++ a ++ c = base ++ b ++ c) by congruence.
    apply append_inv_head, append_inv_tail in H; assumption.
  - destruct (caboose_of t1 tr1) as [c1|] eqn:E1; cbn [bind] in *; [|discriminate].
    destruct (caboose_of t2 tr2) as [c2|] eqn:E2; cbn [bind] in *; [|discriminate].
    rewrite <- H2 in H1.
    assert (H : base ++ a ++ c1 = base ++ a ++ c2) by congruence.
    apply append_inv_head, append_inv_head in H; subst c2.
    eapply caboose_of_inj; eassumption.
Qed.

Lemma urlBuilder_locator_injective_witness :
  let lib := iso_lib sample_now in
  "20161019" = "20161019" /\ ("events" = "events" /\ false = false).
Proof.
  cbv zeta.
  destruct (urlBuilder_locator_injective (iso_lib sample_now)
              "20161019" "20161019" "events" "events" false false
              (PStr (base ++ "20161019" ++ ".export.CSV.zip")))
    as (Hday & Htable).
  split; [apply Hday | apply Htable]; vm_compute; reflexivity.
Defined.

(** ** More on [Search] *)

Lemma str_in_valid_cases (table : string) :
  str_in table valid = true ->
  table = "events" \/ table = "gkg" \/ table = "vgkg" \/ table = "iatv"
  \/ table = "mentions".
Proof.
  unfold str_in, valid; cbn [existsb].
  repeat match goal with
         | |- context [String.eqb table ?s] =>
             destruct (String.eqb_spec table s); [subst; tauto|]
         end.
  discriminate.
Qed.

(** Without a bound [columns] no schema can be applied. *)
Lemma apply_schema_unbound (results : option DataFrame) (df : DataFrame) :
  apply_schema results None <> Ok df.
Proof.
  unfold apply_schema; destruct results as [r|]; [|discriminate].
  destruct (Nat.eqb _ 57); discriminate.
Qed.

Lemma apply_schema_columns (results : option DataFrame) (cols : list string)
    (df : DataFrame) :
  apply_schema results (Some cols) = Ok df ->
  exists r, results = Some r
    /\ df_rows df = df_rows r
    /\ (df_columns df = map Name cols
        \/ df_columns df = map Name (removelast cols)).
Proof.
  unfold apply_schema, set_columns; destruct results as [r|]; [|discriminate].
  cbn [local bind].
  destruct (Nat.eqb _ 57);
    match goal with |- context [if ?b then _ else _] => destruct b end;
    try discriminate; intros H; injection H as <-; exists r; auto.
Qed.

Section SearchShape.

Context {lib : DateLib} {R : Type} {col : Collaborators R}.

(** What [Search] computes once the table name and the dates have passed
    their checks and the table is one that a block handles. *)
Lemma Search_handled_table (self : gdelt) (date : pyarg) (table : string)
    (coverage translation : bool) (r : retval) (ds : pyarg) :
  table = "events" \/ table = "gkg" \/ table = "mentions" ->
  _date_input_check date = Ok r ->
  (x <- _dateRanger date ;; _gdeltRangeString x coverage) = Ok ds ->
  exists self3,
    (forall e, build_download_list date table coverage translation = Raise e ->
       Search self date table coverage translation = (Raise e, self3))
    /\ (forall dl, build_download_list date table coverage translation = Ok dl ->
       Search self date table coverage translation
       = (results <- fetch (set_download_list self3 dl) ds table ;;
          apply_schema results (Some (declared_heads table)),
          set_download_list self3 dl)).
Proof.
  intros Ht Hd Hr; unfold Search; rewrite Hd, Hr.
  destruct Ht as [-> | [-> | ->]];
    (eexists; split;
     [intros e He | intros dl Hdl]);
    cbn [str_in valid existsb String.eqb Ascii.eqb Bool.eqb negb orb
         table_block load_columns attr bind fst snd
         self_events_columns self_gkg_columns self_mentions_columns];
    first [rewrite He | rewrite Hdl]; cbn [bind fst snd]; reflexivity.
Qed.

End SearchShape.

(** For the names [vgkg] and [iatv] the local [columns] is never bound. *)
Lemma Search_success_handled_table {lib : DateLib} {R : Type}
    {col : Collaborators R} (self : gdelt) (date : pyarg) (table : string)
    (coverage translation : bool) (df : DataFrame) :
  fst (Search self date table coverage translation) = Ok df ->
  table = "events" \/ table = "gkg" \/ table = "mentions".
Proof.
  intros H.
  destruct (str_in table valid) eqn:Hv.
  2:{ rewrite (Search_rejects_unlisted_table self date table coverage
                 translation Hv) in H; discriminate. }
  apply str_in_valid_cases in Hv.
  destruct Hv as [-> | [-> | [-> | [-> | ->]]]]; auto; exfalso;
    unfold Search in H;
    cbn [str_in valid existsb String.eqb Ascii.eqb Bool.eqb negb orb] in H;
    (destruct (_date_input_check date); [|discriminate]);
    (destruct (bind (_dateRanger date) _) as [ds|]; [|discriminate]);
    cbn [table_block str_in existsb String.eqb Ascii.eqb Bool.eqb orb fst] in H;
    (destruct (fetch _ ds _) as [results|]; [|discriminate]);
    cbn [bind fst] in H;
    exact (apply_schema_unbound results df H).
Qed.

(** X11: [Search] hands back a table only for the tables events, gkg and
    mentions, whatever the object went through before: for the two other
    names of [valid] the local [columns] is never bound. *)
Theorem Search_returns_only_for_handled_tables (lib : DateLib) (R : Type)
    (col : Collaborators R) (self : gdelt) (date : pyarg) (table : string)
    (coverage translation : bool) (df : DataFrame) :
  fst (Search self date table coverage translation) = Ok df ->
  table = "events" \/ table = "gkg" \/ table = "mentions".
Proof.
  apply Search_success_handled_table.
Qed.

Lemma Search_returns_only_for_handled_tables_witness :
  let lib := iso_lib sample_now in
  let col := sample_run (Some (positional 16 [])) in
  "mentions" = "events" \/ "mentions" = "gkg" \/ "mentions" = "mentions".
Proof.
  cbv zeta.
  apply (Search_returns_only_for_handled_tables (iso_lib sample_now) ranged
           (sample_run (Some (positional 16 []))) fresh_gdelt
           (PList ["2016-10-19"]) "mentions" false false
           (mkDF (map Name sample_mentions_heads) [])).
  vm_compute; reflexivity.
Defined.

(** X12: when [Search] hands back a table, the object holds the download
    list that [_urlBuilder] built for this query, the rows are those of the
    fetched table, and the column names are the declared schema of the
    table, whole or without its last name. *)
Theorem Search_success_shape (lib : DateLib) (R : Type)
    (col : Collaborators R) (self : gdelt) (date : pyarg) (table : string)
    (coverage translation : bool) (df : DataFrame) :
  fst (Search self date table coverage translation) = Ok df ->
  exists dl,
    build_download_list date table coverage translation = Ok dl
    /\ self_download_list (snd (Search self date table coverage translation))
       = Some dl
    /\ (df_columns df = map Name (declared_heads table)
        \/ df_columns df = map Name (removelast (declared_heads table))).
Proof.
  intros H.
  pose proof (Search_success_handled_table self date table
                coverage translation df H) as Ht.
  assert (Hv : str_in table valid = true)
    by (destruct Ht as [-> | [-> | ->]]; reflexivity).
  destruct (_date_input_check date) as [r|e] eqn:Hd.
  2:{ unfold Search in H; rewrite Hv, Hd in H; discriminate. }
  destruct (bind (_dateRanger date) (fun x => _gdeltRangeString x coverage))
    as [ds|e] eqn:Hr.
  2:{ unfold Search in H; rewrite Hv, Hd, Hr in H; discriminate. }
  destruct (Search_handled_table self date table coverage translation r ds
              Ht Hd Hr) as (self3 & Hfail & Hok).
  destruct (build_download_list date table coverage translation) as [dl|e]
    eqn:Hdl.
  2:{ rewrite (Hfail e eq_refl) in H; discriminate. }
  exists dl; split; [reflexivity|].
  rewrite (Hok dl eq_refl) in H |- *; cbn [fst snd] in *.
  split; [reflexivity|].
  apply bind_Ok_inv in H as (results & _ & H).
  apply apply_schema_columns in H as (r0 & _ & _ & Hc); exact Hc.
Qed.

Lemma Search_success_shape_witness :
  let lib := iso_lib sample_now in
  let col := sample_run (Some (positional 16 [])) in
  exists dl,
    build_download_list (PList ["2016-10-19"]) "mentions" false false = Ok dl
    /\ self_download_list
         (snd (Search fresh_gdelt (PList ["2016-10-19"]) "mentions" false false))
       = Some dl.
Proof.
  cbv zeta.
  destruct (Search_success_shape (iso_lib sample_now) ranged
              (sample_run (Some (positional 16 []))) fresh_gdelt
              (PList ["2016-10-19"]) "mentions" false false
              (mkDF (map Name sample_mentions_heads) []))
    as (dl & Hdl & Hself & _); [vm_compute; reflexivity|].
  exists dl; split; assumption.
Defined.

(** X13: a query with an unlisted table name ends with the table
    [ValueError], and a query whose dates fail validation ends with the
    exception that validation raised; in both cases every attribute of the
    object is left as it was, so no download list is built. *)
Theorem Search_failed_validation_keeps_object (lib : DateLib) (R : Type)
    (col : Collaborators R) (self : gdelt) (date : pyarg) (table : string)
    (coverage translation : bool) :
  (str_in table valid = false ->
     Search self date table coverage translation
     = (Raise (ValueError (msg_table_name table)), self))
  /\ (forall e,
        str_in table valid = true -> _date_input_check date = Raise e ->
        Search self date table coverage translation = (Raise e, self)).
Proof.
  split.
  - apply Search_rejects_unlisted_table.
  - intros e Hv Hd; unfold Search; rewrite Hv, Hd; reflexivity.
Qed.

Lemma Search_failed_validation_keeps_object_witness :
  let lib := iso_lib sample_now in
  let col := sample_run (Some (positional 16 [])) in
  Search fresh_gdelt (PList ["2015-02-01"]) "events" false false
  = (Raise (ValueError msg_min), fresh_gdelt)
  /\ Search fresh_gdelt (PList ["2016-10-19"]) "tables" false false
     = (Raise (ValueError (msg_table_name "tables")), fresh_gdelt).
Proof.
  cbv zeta.
  destruct (Search_failed_validation_keeps_object (iso_lib sample_now) ranged
              (sample_run (Some (positional 16 []))) fresh_gdelt
              (PList ["2015-02-01"]) "events" false false)
    as (_ & Hdate).
  destruct (Search_failed_validation_keeps_object (iso_lib sample_now) ranged
              (sample_run (Some (positional 16 []))) fresh_gdelt
              (PList ["2016-10-19"]) "tables" false false)
    as (Htable & _).
  split.
  - apply Hdate; vm_compute; reflexivity.
  - apply Htable; vm_compute; reflexivity.
Defined.

(** ** The pooled fetch *)












Section SearchRepeat.

Context {lib : DateLib} {R : Type} {col : Collaborators R}.

Lemma after_checks_again (self : gdelt) (date : pyarg) (table : string)
    (coverage translation : bool) (ds : pyarg) :
  after_checks (after_checks self date table coverage translation ds)
    date table coverage translation ds
  = after_checks self date table coverage translation ds.
Proof.
  unfold after_checks, load_columns.
  destruct (String.eqb table "events"); [reflexivity|].
  destruct (String.eqb table "mentions"); reflexivity.
Qed.

Lemma after_checks_download_list (self : gdelt) (date : pyarg) (table : string)
    (coverage translation : bool) (ds dl : pyarg) :
  after_checks (set_download_list self dl) date table coverage translation ds
  = set_download_list (after_checks self date table coverage translation ds) dl.
Proof.
  unfold after_checks, load_columns.
  destruct (String.eqb table "events"); [reflexivity|].
  destruct (String.eqb table "mentions"); reflexivity.
Qed.

Lemma set_download_list_again (self : gdelt) (dl : pyarg) :
  set_download_list (set_download_list self dl) dl = set_download_list self dl.
Proof. reflexivity. Qed.

(** [Search] on a handled table, with the object made explicit. *)
Lemma Search_handled_table_object (self : gdelt) (date : pyarg) (table : string)
    (coverage translation : bool) (r : retval) (ds : pyarg) :
  table = "events" \/ table = "gkg" \/ table = "mentions" ->
  _date_input_check date = Ok r ->
  (x <- _dateRanger date ;; _gdeltRangeString x coverage) = Ok ds ->
  Search self date table coverage translation
  = match build_download_list date table coverage translation with
    | Raise e =>
        (Raise e, after_checks self date table coverage translation ds)
    | Ok dl =>
        let self4 :=
          set_download_list
            (after_checks self date table coverage translation ds) dl in
        (results <- fetch self4 ds table ;;
         apply_schema results (Some (declared_heads table)), self4)
    end.
Proof.
  intros Ht Hd Hr; unfold Search; rewrite Hd, Hr.
  destruct Ht as [-> | [-> | ->]];
    cbn [str_in valid existsb String.eqb Ascii.eqb Bool.eqb negb orb
         table_block load_columns attr bind fst snd after_checks
         self_events_columns self_gkg_columns self_mentions_columns];
    destruct (build_download_list date _ coverage translation);
    cbn [bind fst snd]; reflexivity.
Qed.

(** [Search] on the two names that no block handles. *)
Lemma Search_unhandled_table_object (self : gdelt) (date : pyarg)
    (table : string) (coverage translation : bool) (r : retval) (ds : pyarg) :
  table = "vgkg" \/ table = "iatv" ->
  _date_input_check date = Ok r ->
  (x <- _dateRanger date ;; _gdeltRangeString x coverage) = Ok ds ->
  Search self date table coverage translation
  = (results <- fetch (after_checks self date table coverage translation ds)
                  ds table ;;
     apply_schema results None,
     after_checks self date table coverage translation ds).
Proof.
  intros Ht Hd Hr; unfold Search; rewrite Hd, Hr.
  destruct Ht as [-> | ->];
    cbn [str_in valid existsb String.eqb Ascii.eqb Bool.eqb negb orb
         table_block load_columns attr bind fst snd after_checks];
    reflexivity.
Qed.

End SearchRepeat.

(** With one and the same order of arrival, repeating a query on the
    object that the query left behind changes nothing. *)
Lemma Search_repeat_fixed_arrival {lib : DateLib} {R : Type}
    {col : Collaborators R} (self : gdelt) (date : pyarg) (table : string)
    (coverage translation : bool) :
  Search (snd (Search self date table coverage translation))
         date table coverage translation
  = Search self date table coverage translation.
Proof.
  destruct (str_in table valid) eqn:Hv.
  2:{ rewrite !(Search_rejects_unlisted_table _ date table coverage
                  translation Hv); reflexivity. }
  destruct (_date_input_check date) as [r|e] eqn:Hd.
  2:{ unfold Search; rewrite Hv, Hd; reflexivity. }
  destruct (bind (_dateRanger date) (fun x => _gdeltRangeString x coverage))
    as [ds|e] eqn:Hr.
  2:{ unfold Search; rewrite Hv, Hd, Hr; reflexivity. }
  apply str_in_valid_cases in Hv.
  assert (Hcase : (table = "events" \/ table = "gkg" \/ table = "mentions")
                  \/ (table = "vgkg" \/ table = "iatv")) by tauto.
  destruct Hcase as [Ht | Ht].
  - rewrite !(Search_handled_table_object _ date table coverage translation
                r ds Ht Hd Hr).
    destruct (build_download_list date table coverage translation) as [dl|e];
      cbn zeta; cbn [snd].
    + rewrite after_checks_download_list, after_checks_again,
        set_download_list_again; reflexivity.
    + rewrite after_checks_again; reflexivity.
  - rewrite !(Search_unhandled_table_object _ date table coverage translation
                r ds Ht Hd Hr); cbn [snd].
    rewrite after_checks_again; reflexivity.
Qed.



Section ArrivalOrder.

Context {lib : DateLib} {R : Type} (col : Collaborators R).
Variable order : list string -> list string.
Hypothesis order_perm : forall l, Permutation (order l) l.

Lemma fetch_with_arrival (self : gdelt) (ds : pyarg) (table : string) :
  table <> "events" \/ (exists bucket, ds = PStr bucket) ->
  @fetch R (with_arrival col order order_perm) self ds table
  = @fetch R col self ds table.
Proof.
  intros [H | (bucket & ->)]; [|reflexivity].
  unfold fetch.
  destruct (String.eqb_spec table "events"); [contradiction | reflexivity].
Qed.

(** On the ordered paths the order of arrival plays no part. *)
Lemma Search_with_arrival (self : gdelt) (date : pyarg) (table : string)
    (coverage translation : bool) :
  @ordered_fetch R col date table coverage ->
  @Search lib R (with_arrival col order order_perm) self date table
    coverage translation
  = @Search lib R col self date table coverage translation.
Proof.
  intros Hord.
  destruct (str_in table valid) eqn:Hv.
  2:{ rewrite !(Search_rejects_unlisted_table _ date table coverage
                  translation Hv); reflexivity. }
  destruct (_date_input_check date) as [r|e] eqn:Hd.
  2:{ unfold Search; rewrite Hv, Hd; reflexivity. }
  destruct (bind (@_dateRanger R col date)
                 (fun x => @_gdeltRangeString R col x coverage))
    as [ds|e] eqn:Hr.
  2:{ unfold Search; rewrite Hv, Hd.
      change (bind (@_dateRanger R (with_arrival col order order_perm) date)
                (fun x => @_gdeltRangeString R
                            (with_arrival col order order_perm) x coverage))
        with (bind (@_dateRanger R col date)
                (fun x => @_gdeltRangeString R col x coverage)).
      rewrite Hr; reflexivity. }
  assert (Hpath : table <> "events" \/ (exists bucket, ds = PStr bucket)).
  { destruct Hord as [H | H]; [left; assumption | right; apply H; exact Hr]. }
  apply str_in_valid_cases in Hv.
  assert (Hcase : (table = "events" \/ table = "gkg" \/ table = "mentions")
                  \/ (table = "vgkg" \/ table = "iatv")) by tauto.
  destruct Hcase as [Ht | Ht].
  - rewrite (@Search_handled_table_object lib R
               (with_arrival col order order_perm) self date table coverage
               translation r ds Ht Hd Hr).
    rewrite (@Search_handled_table_object lib R col self date table coverage
               translation r ds Ht Hd Hr).
    change (@build_download_list lib R (with_arrival col order order_perm))
      with (@build_download_list lib R col).
    destruct (build_download_list date table coverage translation) as [dl|e];
      [|reflexivity].
    cbn zeta; rewrite (fetch_with_arrival _ ds table Hpath); reflexivity.
  - rewrite (@Search_unhandled_table_object lib R
               (with_arrival col order order_perm) self date table coverage
               translation r ds Ht Hd Hr).
    rewrite (@Search_unhandled_table_object lib R col self date table coverage
               translation r ds Ht Hd Hr).
    rewrite (fetch_with_arrival _ ds table Hpath); reflexivity.
Qed.

End ArrivalOrder.

(** X16: on the paths where the fetched tables keep the order of the
    download list (every table but events, and events over a single
    locator), repeating a query on the object that the query left behind
    gives the same result and leaves the same object, in whatever order
    the pool would deliver (the clock, the collaborators and the remote
    files being the same). *)
Theorem Search_repeat_same (lib : DateLib) (R : Type) (col : Collaborators R)
    (order : list string -> list string)
    (order_perm : forall l, Permutation (order l) l)
    (self : gdelt) (date : pyarg) (table : string)
    (coverage translation : bool) :
  @ordered_fetch R col date table coverage ->
  @Search lib R (with_arrival col order order_perm)
    (snd (@Search lib R col self date table coverage translation))
    date table coverage translation
  = @Search lib R col self date table coverage translation.
Proof.
  intros Hord.
  rewrite (Search_with_arrival col order order_perm _ date table coverage
             translation Hord).
  apply Search_repeat_fixed_arrival.
Qed.

Lemma Search_repeat_same_witness :
  let lib := iso_lib sample_now in
  let col := sample_run (Some (positional 16 [[]])) in
  let reversed :=
    with_arrival col (@rev string)
      (fun l => Permutation_sym (Permutation_rev l)) in
  @Search lib ranged reversed
    (snd (@Search lib ranged col fresh_gdelt
            (PList ["2016-10-19"; "2016-10-21"]) "mentions" false false))
    (PList ["2016-10-19"; "2016-10-21"]) "mentions" false false
  = @Search lib ranged col fresh_gdelt
      (PList ["2016-10-19"; "2016-10-21"]) "mentions" false false.
Proof.
  cbv zeta.
  apply (Search_repeat_same (iso_lib sample_now) ranged
           (sample_run (Some (positional 16 [[]]))) (@rev string)
           (fun l => Permutation_sym (Permutation_rev l))).
  left; discriminate.
Defined.



(** ** Normalised column names *)

Lemma lower_char_idem (c : ascii) : lower_char (lower_char c) = lower_char c.
Proof. destruct c as [[] [] [] [] [] [] [] []]; reflexivity. Qed.

Lemma lower_char_underscore (c : ascii) :
  Ascii.eqb (lower_char c) "_" = Ascii.eqb c "_".
Proof. destruct c as [[] [] [] [] [] [] [] []]; reflexivity. Qed.

Lemma lower_char_not_upper (c : ascii) : is_upper (lower_char c) = false.
Proof. destruct c as [[] [] [] [] [] [] [] []]; reflexivity. Qed.

Lemma lower_idem (s : string) : lower (lower s) = lower s.
Proof.
  induction s as [|c s IH]; cbn [lower]; [reflexivity|].
  rewrite lower_char_idem, IH; reflexivity.
Qed.

Lemma remove_underscores_lower (s : string) :
  remove_underscores (lower s) = lower (remove_underscores s).
Proof.
  induction s as [|c s IH]; cbn [lower remove_underscores]; [reflexivity|].
  rewrite lower_char_underscore.
  destruct (Ascii.eqb c "_"); cbn [lower]; rewrite IH; reflexivity.
Qed.

Lemma remove_underscores_idem (s : string) :
  remove_underscores (remove_underscores s) = remove_underscores s.
Proof.
  induction s as [|c s IH]; cbn [remove_underscores]; [reflexivity|].
  destruct (Ascii.eqb c "_") eqn:E; [assumption|].
  cbn [remove_underscores]; rewrite E, IH; reflexivity.
Qed.

Lemma remove_underscores_clean (s : string) :
  Forall (fun c => Ascii.eqb c "_" = false)
         (list_ascii_of_string (remove_underscores s)).
Proof.
  induction s as [|c s IH]; cbn [remove_underscores list_ascii_of_string];
    [constructor|].
  destruct (Ascii.eqb c "_") eqn:E; [assumption|].
  cbn [list_ascii_of_string]; constructor; assumption.
Qed.

Lemma remove_underscores_length (s : string) :
  (String.length (remove_underscores s) <= String.length s)%nat.
Proof.
  induction s as [|c s IH]; cbn [remove_underscores String.length]; [lia|].
  destruct (Ascii.eqb c "_"); cbn [String.length]; lia.
Qed.

Lemma lower_length (s : string) : String.length (lower s) = String.length s.
Proof.
  induction s as [|c s IH]; cbn [lower String.length]; congruence.
Qed.

(** X18: normalising column names is idempotent; a normalised name has no
    underscore and no upper-case letter and is not longer than the name it
    comes from; the list of names keeps its length. *)
Theorem normcols_idempotent_and_clean (columns : list string) :
  normcols (normcols columns) = normcols columns
  /\ List.length (normcols columns) = List.length columns
  /\ Forall (fun x =>
               Forall (fun c => Ascii.eqb c "_" = false /\ is_upper c = false)
                      (list_ascii_of_string x))
            (normcols columns)
  /\ Forall2 (fun x y => (String.length y <= String.length x)%nat)
             columns (normcols columns).
Proof.
  unfold normcols; split; [|split; [apply length_map|split]].
  - rewrite map_map; apply map_ext; intros x; unfold normcol.
    rewrite remove_underscores_lower, lower_idem, remove_underscores_idem.
    reflexivity.
  - apply Forall_map, Forall_forall; intros x _; unfold normcol.
    pose proof (remove_underscores_clean x) as H.
    induction (remove_underscores x) as [|c s IH];
      cbn [lower list_ascii_of_string] in *; [constructor|].
    inversion H; subst; constructor; auto.
    rewrite lower_char_underscore, lower_char_not_upper; auto.
  - induction columns as [|x l IH]; cbn [map]; constructor; auto.
    unfold normcol; rewrite lower_length; apply remove_underscores_length.
Qed.
